(** * Verification of the stock dashboard's trend forecast and its pipeline

    The development embeds [model.py] (the least-squares forecast
    [predict_stock_price]) and the main logic of [app.py] (length check,
    metrics, moving averages, [dropna], forecast, confidence heuristic).

    Conventions of the embedding.
    - A binary64 number is an exact rational ([Q]): arithmetic does not
      round, overflow or produce infinities.  [NaN], the missing value of
      pandas, is the absent cell [None].  Results that the program rounds
      are compared with Leibniz equality, everything else with [==].
    - A pandas [DataFrame] is an index plus an ordered association list
      of named columns; frames live in a store and are passed by
      reference, as Python objects are.
    - A Python function is a computation in the monad [M]: it threads the
      store and the Streamlit output and may raise.
    - The library calls ([reset_index], [dropna], [rolling], [ewm],
      [LinearRegression]) are given their documented behaviour, restricted
      to the arguments the two files pass. *)

From Stdlib Require Import QArith Qabs Qround Qminmax Lia Lqa ZArith List.
From stdpp Require Import base list strings.

Open Scope Q_scope.

(** ** Numbers *)

Module Num.

(** [numpy.rint]: nearest integer, ties to the even one. *)
Definition rint (q : Q) : Z :=
  let f := Qfloor q in
  match Qcompare (q - inject_Z f) (1 # 2) with
  | Lt => f
  | Gt => (f + 1)%Z
  | Eq => if Z.even f then f else (f + 1)%Z
  end.

(** [round(x, d)] on a NumPy scalar: scale by [10^d], [rint], unscale.
    The same rounding gives the number printed by a [:.df] format. *)
Definition py_round (q : Q) (d : nat) : Q :=
  let s := (10 ^ Z.of_nat d)%Z in
  Qmake (rint (q * inject_Z s)) (Z.to_pos s).

(** [int(x)] truncates towards zero. *)
Definition py_int (q : Q) : Z :=
  if Qle_bool 0 q then Qfloor q else Qceiling q.

Definition Qsum (l : list Q) : Q := fold_right Qplus 0 l.

(** [numpy.average] of a one-dimensional array. *)
Definition mean (l : list Q) : Q := Qsum l / inject_Z (Z.of_nat (length l)).

Definition dot (u v : list Q) : Q := Qsum (zip_with Qmult u v).

(** [numpy.arange(n)] *)
Definition arange (n : nat) : list Q :=
  map (fun i => inject_Z (Z.of_nat i)) (seq 0 n).

End Num.
Export Num.

(** ** Data frames *)

(** A cell of a float column; [None] is [NaN]. *)
Definition cell := option Q.

Record DataFrame := {
  index_name : option string;
  index : list Z;
  columns : list (string * list cell)
}.

Inductive exn :=
| KeyError (key : string)
| ValueError (msg : string)
| IndexError
| StopException.

Definition result (A : Type) : Type := exn + A.

Module Frame.

Definition len (df : DataFrame) : nat := length (index df).

(** [df.empty]: no rows or no columns *)
Definition empty (df : DataFrame) : bool :=
  match index df, columns df with
  | [], _ | _, [] => true
  | _, _ => false
  end.

Definition names (df : DataFrame) : list string := map fst (columns df).

Fixpoint lookup_col (name : string) (cols : list (string * list cell))
  : option (list cell) :=
  match cols with
  | [] => None
  | (k, v) :: rest => if String.eqb k name then Some v else lookup_col name rest
  end.

Fixpoint assign_col (name : string) (v : list cell)
  (cols : list (string * list cell)) : list (string * list cell) :=
  match cols with
  | [] => [(name, v)]
  | (k, old) :: rest =>
      if String.eqb k name then (k, v) :: rest
      else (k, old) :: assign_col name v rest
  end.

(** [df[name]] *)
Definition getitem (name : string) (df : DataFrame) : result (list cell) :=
  match lookup_col name (columns df) with
  | Some v => inr v
  | None => inl (KeyError name)
  end.

(** [df[name] = v]: replaces the column or appends it as the last one;
    the value must have one entry per row. *)
Definition setitem (name : string) (v : list cell) (df : DataFrame)
  : result DataFrame :=
  if Nat.eqb (length v) (len df)
  then inr {| index_name := index_name df; index := index df;
              columns := assign_col name v (columns df) |}
  else inl (ValueError "Length of values does not match length of index").

(** the column name [reset_index] gives to the old index *)
Definition index_label (df : DataFrame) : string :=
  match index_name df with
  | Some s => s
  | None => if bool_decide ("index"%string ∈ names df) then "level_0"%string
            else "index"%string
  end.

(** [df.reset_index()]: a new frame whose old index is its first column
    and whose index is [0..n-1]. *)
Definition reset_index (df : DataFrame) : result DataFrame :=
  let label := index_label df in
  if bool_decide (label ∈ names df)
  then inl (ValueError "cannot insert column, already exists")
  else inr {| index_name := None;
              index := map Z.of_nat (seq 0 (len df));
              columns := (label, map (fun d => Some (inject_Z d)) (index df))
                         :: columns df |}.

(** the entries of [l] at the positions [rows], in that order *)
Definition take_rows {A} (rows : list nat) (l : list A) : list A :=
  omap (fun i => l !! i) rows.

Definition select_rows (rows : list nat) (df : DataFrame) : DataFrame :=
  {| index_name := index_name df;
     index := take_rows rows (index df);
     columns := map (fun c => (fst c, take_rows rows (snd c))) (columns df) |}.

(** a row is complete when no column is [NaN] there *)
Definition complete_row (df : DataFrame) (i : nat) : bool :=
  forallb (fun c => match snd c !! i with
                    | Some (Some _) => true
                    | _ => false
                    end) (columns df).

(** [df.dropna()]: a new frame with the complete rows *)
Definition dropna (df : DataFrame) : DataFrame :=
  select_rows (List.filter (complete_row df) (seq 0 (len df))) df.

(** [df.tail(k)] *)
Definition tail (k : nat) (df : DataFrame) : DataFrame :=
  select_rows (seq (len df - k) (Nat.min k (len df))) df.

(** [s.iloc[-k]] for [k >= 1] *)
Definition iloc_neg (k : nat) (s : list cell) : result cell :=
  if Nat.leb k (length s)
  then match s !! (length s - k)%nat with
       | Some c => inr c
       | None => inl IndexError
       end
  else inl IndexError.

(** the numbers of a column, [None] when one is [NaN] *)
Definition to_numeric (s : list cell) : option (list Q) := mapM id s.

(** [s.rolling(w).mean()] with [min_periods = w]: at row [i] the mean of
    the observations in rows [i-w+1 .. i], [NaN] while fewer than [w]
    observations are in the window. *)
Definition window (w i : nat) (s : list cell) : list cell :=
  drop (S i - w) (take (S i) s).

Definition rolling_mean (w : nat) (s : list cell) : list cell :=
  map (fun i =>
         let obs := omap id (window w i s) in
         if Nat.leb w (length obs) then Some (mean obs) else None)
      (seq 0 (length s)).

(** [s.ewm(span=span, adjust=False).mean()]: the running weighted value,
    with pandas' treatment of [NaN] entries ([ignore_na=False]). *)
Definition ewm_alpha (span : Q) : Q := 2 / (span + 1).

Record ewm_state := { weighted : cell; old_wt : Q }.

Definition ewm_step (alpha : Q) (st : ewm_state) (cur : cell) : ewm_state :=
  match weighted st with
  | Some w =>
      let wt := old_wt st * (1 - alpha) in
      match cur with
      | Some x =>
          {| weighted :=
               if Qeq_bool w x then Some w
               else Some ((wt * w + alpha * x) / (wt + alpha));
             old_wt := 1 |}
      | None => {| weighted := Some w; old_wt := wt |}
      end
  | None => {| weighted := cur; old_wt := old_wt st |}
  end.

Fixpoint ewm_scan (alpha : Q) (st : ewm_state) (s : list cell) : list cell :=
  match s with
  | [] => []
  | cur :: rest =>
      let st' := ewm_step alpha st cur in
      weighted st' :: ewm_scan alpha st' rest
  end.

Definition ewm_mean (span : Q) (s : list cell) : list cell :=
  match s with
  | [] => []
  | first :: rest =>
      first :: ewm_scan (ewm_alpha span) {| weighted := first; old_wt := 1 |} rest
  end.

End Frame.

(** ** scikit-learn's [LinearRegression] with one feature

    [fit] validates its arrays, centres both on their means, solves the
    centred least-squares problem with the minimum-norm solver (slope [0]
    when the centred feature vanishes) and recovers the intercept. *)

Module LinearRegression.

Record t := { coef_ : Q; intercept_ : Q }.

Definition center (l : list Q) : list Q := map (fun v => v - mean l) l.

(** minimum-norm solution of [X * w = y] for a single column [X] *)
Definition lstsq (X y : list Q) : Q :=
  let sxx := dot X X in
  if Qeq_bool sxx 0 then 0 else dot X y / sxx.

Definition fit_arrays (X y : list Q) : t :=
  let X_offset := mean X in
  let y_offset := mean y in
  let coef := lstsq (center X) (center y) in
  {| coef_ := coef; intercept_ := y_offset - X_offset * coef |}.

Definition fit (X y : list cell) : result t :=
  match Frame.to_numeric X with
  | None => inl (ValueError "Input X contains NaN")
  | Some xs =>
      match xs with
      | [] => inl (ValueError "Found array with 0 sample(s)")
      | _ :: _ =>
          match Frame.to_numeric y with
          | None => inl (ValueError "Input y contains NaN")
          | Some ys =>
              if Nat.eqb (length xs) (length ys) then inr (fit_arrays xs ys)
              else inl (ValueError "inconsistent numbers of samples")
          end
      end
  end.

Definition predict (model : t) (x : Q) : Q :=
  x * coef_ model + intercept_ model.

End LinearRegression.

(** ** Streamlit output *)

Inductive icon := Green | Red.

Record article := {
  title : option string;
  publisher : option string;
  link : option string
}.

(** What the script puts on the page.  A formatted number is carried as
    the number that is printed. *)
Inductive widget :=
| StError (msg : string)
| StMetric (label : string) (value : cell) (delta : option (icon * cell))
| StDivider
| StPlotlyChart (traces : list (string * list Z * list cell))
| StDataframe (shown : DataFrame)
| StDownloadButton (table : DataFrame)
| StSuccess (predicted : Q)
| StInfo (confidence : cell)
| StWarning (msg : string)
| StMarkdown (title publisher link : string)
| StRule.

(** ** Store, output and exceptions *)

(** A reference to a frame in the store. *)
Abbreviation ref := nat.

Record state := { heap : list DataFrame; ui : list widget }.

Definition M (A : Type) : Type := state -> state * result A.

Definition ret {A} (a : A) : M A := fun s => (s, inr a).

Definition bind {A B} (m : M A) (k : A -> M B) : M B :=
  fun s => match m s with
           | (s', inr a) => k a s'
           | (s', inl e) => (s', inl e)
           end.

Notation "'let*' x ':=' e 'in' k" := (bind e (fun x => k))
  (at level 10, x name, e at level 100, k at level 200).
Notation "e1 '>>' e2" := (bind e1 (fun _ => e2))
  (at level 100, e2 at level 200, right associativity).

Definition raise {A} (e : exn) : M A := fun s => (s, inl e).

Definition lift {A} (r : result A) : M A :=
  match r with inr a => ret a | inl e => raise e end.

Definition emit (w : widget) : M unit :=
  fun s => ({| heap := heap s; ui := ui s ++ [w] |}, inr tt).

(** a new object *)
Definition alloc (df : DataFrame) : M ref :=
  fun s => ({| heap := heap s ++ [df]; ui := ui s |}, inr (length (heap s))).

Definition deref (r : ref) : M DataFrame :=
  fun s => match heap s !! r with
           | Some df => (s, inr df)
           | None => (s, inl (KeyError "unbound reference"))
           end.

(** in-place update of the object behind [r] *)
Definition update (r : ref) (df : DataFrame) : M unit :=
  fun s => ({| heap := <[r := df]> (heap s); ui := ui s |}, inr tt).

Definition len_ (r : ref) : M nat :=
  let* df := deref r in ret (Frame.len df).

Definition getitem_ (r : ref) (name : string) : M (list cell) :=
  let* df := deref r in lift (Frame.getitem name df).

Definition setitem_ (r : ref) (name : string) (v : list cell) : M unit :=
  let* df := deref r in
  let* df' := lift (Frame.setitem name v df) in
  update r df'.

Definition reset_index_ (r : ref) : M ref :=
  let* df := deref r in
  let* df' := lift (Frame.reset_index df) in
  alloc df'.

Definition dropna_ (r : ref) : M ref :=
  let* df := deref r in alloc (Frame.dropna df).

(** ** [model.py] *)

Definition predict_stock_price (data : ref) : M Q :=
  let* data := reset_index_ data in
  let* n := len_ data in
  setitem_ data "Days" (map Some (arange n)) >>
  let* X := getitem_ data "Days" in
  let* y := getitem_ data "Close" in
  let* model := lift (LinearRegression.fit X y) in
  let* n := len_ data in
  let future_day := inject_Z (Z.of_nat n + 1) in
  let prediction := LinearRegression.predict model future_day in
  ret (py_round prediction 2).

(** ** [app.py], main logic *)

Module App.

(** arithmetic on Python floats that may be [NaN] *)
Definition fsub (a b : cell) : cell :=
  match a, b with Some x, Some y => Some (x - y) | _, _ => None end.

Definition fadd (a b : cell) : cell :=
  match a, b with Some x, Some y => Some (x + y) | _, _ => None end.

Definition fmul (a b : cell) : cell :=
  match a, b with Some x, Some y => Some (x * y) | _, _ => None end.

Definition fabs (a : cell) : cell := option_map Qabs a.

(** [a < b]; false when either side is [NaN] *)
Definition flt (a b : cell) : bool :=
  match a, b with
  | Some x, Some y => negb (Qle_bool y x)
  | _, _ => false
  end.

(** the built-in [min(a, b)]: [b] only when [b < a] *)
Definition py_min (a b : cell) : cell := if flt b a then b else a.

(** a number printed with [d] decimals *)
Definition fmt (d : nat) (c : cell) : cell :=
  option_map (fun q => py_round q d) c.

(** [int(x)] raises on [NaN] *)
Definition int (c : cell) : result Z :=
  match c with
  | Some q => inr (py_int q)
  | None => inl (ValueError "cannot convert float NaN to integer")
  end.

(** line 156 *)
Definition confidence (delta : cell) : cell :=
  py_min (Some 95) (fadd (Some 70) (fmul (fabs delta) (Some 2))).

(** lines 76-78 *)
Definition length_check (data : ref) : M unit :=
  let* df := deref data in
  if Frame.empty df || Nat.ltb (Frame.len df) 2
  then emit (StError "Invalid stock symbol or insufficient data") >>
       raise StopException
  else ret tt.

(** lines 83-89, the value is [delta] *)
Definition metrics (data : ref) : M cell :=
  let* close := getitem_ data "Close" in
  let* last_close := lift (Frame.iloc_neg 1 close) in
  let* close := getitem_ data "Close" in
  let* prev_close := lift (Frame.iloc_neg 2 close) in
  let* open := getitem_ data "Open" in
  let* last_open := lift (Frame.iloc_neg 1 open) in
  let* high := getitem_ data "High" in
  let* last_high := lift (Frame.iloc_neg 1 high) in
  let* volume := getitem_ data "Volume" in
  let* v := lift (Frame.iloc_neg 1 volume) in
  let* last_volume := lift (int v) in
  let delta := fsub last_close prev_close in
  let delta_icon := if flt (Some 0) delta then Green else Red in
  emit (StMetric "Open" (fmt 2 last_open) None) >>
  emit (StMetric "Close" (fmt 2 last_close) (Some (delta_icon, fmt 2 delta))) >>
  emit (StMetric "High" (fmt 2 last_high) None) >>
  emit (StMetric "Volume" (Some (inject_Z last_volume)) None) >>
  emit StDivider >>
  ret delta.

(** lines 112-139 *)
Definition chart_tab (data : ref) : M unit :=
  let* close := getitem_ data "Close" in
  setitem_ data "SMA_20" (Frame.rolling_mean 20 close) >>
  let* close := getitem_ data "Close" in
  setitem_ data "EMA_20" (Frame.ewm_mean 20 close) >>
  let* df := deref data in
  let* close := getitem_ data "Close" in
  let* sma := getitem_ data "SMA_20" in
  let* ema := getitem_ data "EMA_20" in
  emit (StPlotlyChart [("Close"%string, index df, close);
                     ("SMA 20"%string, index df, sma);
                     ("EMA 20"%string, index df, ema)]).

(** lines 142-150 *)
Definition data_tab (data : ref) : M unit :=
  let* df := deref data in
  emit (StDataframe (Frame.tail 25 df)) >>
  emit (StDownloadButton df).

(** lines 153-159 *)
Definition prediction_tab (data : ref) (delta : cell) : M unit :=
  let* cleaned := dropna_ data in
  let* prediction := predict_stock_price cleaned in
  let confidence := confidence delta in
  emit (StSuccess (py_round prediction 2)) >>
  emit (StInfo (fmt 1 confidence)).

(** lines 162-175; [news] is what the ticker's news feed returned *)
Fixpoint show_news (news : list article) : M unit :=
  match news with
  | [] => ret tt
  | a :: rest =>
      emit (StMarkdown (default "No Title"%string (title a))
                     (default ""%string (publisher a))
                     (default "#"%string (link a))) >>
      emit StRule >>
      show_news rest
  end.

Definition news_tab (feed : list article) : M unit :=
  let news := take 5 feed in
  match news with
  | [] => emit (StWarning "No recent news available.")
  | _ :: _ => show_news news
  end.

(** lines 73-175; [fetched] is what [load_data(symbol, period)] returned *)
Definition main_logic (symbol : string) (fetched : DataFrame)
  (feed : list article) : M unit :=
  if String.eqb symbol "" then ret tt
  else
    let* data := alloc fetched in
    length_check data >>
    let* delta := metrics data in
    chart_tab data >>
    data_tab data >>
    prediction_tab data delta >>
    news_tab feed.

(** one run of the script on a fresh page *)
Definition run (symbol : string) (fetched : DataFrame) (feed : list article)
  : state * result unit :=
  main_logic symbol fetched feed {| heap := []; ui := [] |}.

End App.

(** ** The fetched price table *)

(** Modelled from the spec: the market-data service is an external
    collaborator; its result is the PriceSeries of the data model, an
    ordered sequence of daily observations whose fields are numbers. *)
Record Bar := {
  Date : Z;
  AdjClose : Q;
  Close : Q;
  High : Q;
  Low : Q;
  Open : Q;
  Volume : Z
}.

(** Modelled from the spec: the table [load_data] returns for such a
    series, indexed by trading date, with flat column names (the columns
    of [yf.download(..., auto_adjust=False)]). *)
Definition price_frame (bars : list Bar) : DataFrame :=
  let col (f : Bar -> Q) := map Some (map f bars) in
  {| index_name := Some "Date"%string;
     index := map Date bars;
     columns := [("Adj Close"%string, col AdjClose);
                 ("Close"%string, col Close);
                 ("High"%string, col High);
                 ("Low"%string, col Low);
                 ("Open"%string, col Open);
                 ("Volume"%string, col (fun b => inject_Z (Volume b)))] |}.

(** ** Vocabulary of the statements *)

(** The forecast as a function of the [Close] numbers alone: regress on
    the day numbers [0..n-1], evaluate at [n + 1], round to two places. *)
Definition forecast (closes : list Q) : Q :=
  let n := length closes in
  let model := LinearRegression.fit_arrays (arange n) closes in
  py_round (LinearRegression.predict model (inject_Z (Z.of_nat n + 1))) 2.



(** [df] is a table of [length closes] records whose [Close] column holds
    [closes], and whose index can be turned into a column. *)
Definition close_column (df : DataFrame) (closes : list cell) : Prop :=
  Frame.getitem "Close" df = inr closes
  /\ length closes = Frame.len df
  /\ Frame.index_label df ∉ Frame.names df.


(** The value [predict_stock_price] returns for the [Close] cells [cs]. *)
Definition predicted (cs : list cell) : result Q :=
  match LinearRegression.fit (map Some (arange (length cs))) cs with
  | inl e => inl e
  | inr model =>
      inr (py_round (LinearRegression.predict model
                       (inject_Z (Z.of_nat (length cs) + 1))) 2)
  end.

(** The private copy [predict_stock_price] works on: the reset frame with
    its [Days] column. *)
Definition with_days (df : DataFrame) : DataFrame :=
  {| index_name := index_name df;
     index := index df;
     columns := Frame.assign_col "Days" (map Some (arange (Frame.len df)))
                                 (columns df) |}.

(** ... and what the function computes from that copy *)
Definition regress (work : DataFrame) : result Q :=
  match Frame.getitem "Days" work with
  | inl e => inl e
  | inr X =>
      match Frame.getitem "Close" work with
      | inl e => inl e
      | inr y =>
          match LinearRegression.fit X y with
          | inl e => inl e
          | inr model =>
              inr (py_round
                     (LinearRegression.predict model
                        (inject_Z (Z.of_nat (Frame.len work) + 1))) 2)
          end
      end
  end.

(** The fetched table once the chart tab has added its two columns. *)
Definition charted (bars : list Bar) : DataFrame :=
  let close := map Some (map Close bars) in
  {| index_name := index_name (price_frame bars);
     index := index (price_frame bars);
     columns := columns (price_frame bars)
                ++ [("SMA_20"%string, Frame.rolling_mean 20 close);
                    ("EMA_20"%string, Frame.ewm_mean 20 close)] |}.

(** A table without its first [k] rows. *)
Definition drop_rows (k : nat) (df : DataFrame) : DataFrame :=
  {| index_name := index_name df;
     index := drop k (index df);
     columns := map (fun c => (fst c, drop k (snd c))) (columns df) |}.

(** What the page shows before the forecast, for a table that ends with
    the observations [prev] and [last]. *)
Definition page_before_forecast (bars : list Bar) (prev last : Bar)
  : list widget :=
  let delta := Some (Close last - Close prev) in
  [StMetric "Open" (App.fmt 2 (Some (Open last))) None;
   StMetric "Close" (App.fmt 2 (Some (Close last)))
          (Some (if App.flt (Some 0) delta then Green else Red,
                 App.fmt 2 delta));
   StMetric "High" (App.fmt 2 (Some (High last))) None;
   StMetric "Volume" (Some (inject_Z (py_int (inject_Z (Volume last))))) None;
   StDivider;
   StPlotlyChart
     [("Close"%string, map Date bars, map Some (map Close bars));
      ("SMA 20"%string, map Date bars,
       Frame.rolling_mean 20 (map Some (map Close bars)));
      ("EMA 20"%string, map Date bars,
       Frame.ewm_mean 20 (map Some (map Close bars)))];
   StDataframe (Frame.tail 25 (charted bars));
   StDownloadButton (charted bars)].

(** The forecast and confidence lines of the page. *)
Definition is_forecast (w : widget) : bool :=
  match w with StSuccess _ | StInfo _ => true | _ => false end.

(** Sample data: [n] daily observations whose closes lie on the line
    [m * day + c]. *)
Definition line_bar (m c : Q) (day : nat) : Bar :=
  let close := m * inject_Z (Z.of_nat day) + c in
  {| Date := Z.of_nat day;
     AdjClose := close;
     Close := close;
     High := close + 1;
     Low := close - 1;
     Open := close - (1 # 2);
     Volume := 1000 + Z.of_nat day |}.

Definition line_bars (m c : Q) (n : nat) : list Bar :=
  map (line_bar m c) (seq 0 n).

(** a table with nothing but a [Close] column *)
Definition close_only (closes : list Q) : DataFrame :=
  {| index_name := None;
     index := map Z.of_nat (seq 100 (length closes));
     columns := [("Close"%string, map Some closes)] |}.

(** [df] has a column [name] with one entry per row. *)
Definition has_column (df : DataFrame) (name : string) (col : list cell)
  : Prop :=
  Frame.getitem name df = inr col /\ length col = Frame.len df.


(** The table behind reference 0 still has the index of [fetched] and
    every column of [fetched], except for columns named like the two the
    chart tab writes. *)
Definition table_kept (fetched : DataFrame) (s : state) : Prop :=
  exists data,
    heap s !! 0%nat = Some data
    /\ index data = index fetched
    /\ index_name data = index_name fetched
    /\ forall name,
         name <> "SMA_20"%string -> name <> "EMA_20"%string ->
         Frame.getitem name data = Frame.getitem name fetched.

(** A computation keeps a property of the state. *)
Definition keeps (I : state -> Prop) {A} (m : M A) : Prop :=
  forall s, I s -> I (fst (m s)).

(** A computation only appends widgets satisfying [P] to the page and
    does not end the script with [st.stop()]. *)
Definition behaves (P : widget -> Prop) {A} (m : M A) : Prop :=
  forall s,
    (exists ws, ui (fst (m s)) = ui s ++ ws /\ Forall P ws)
    /\ snd (m s) <> inl StopException.

Definition is_error (w : widget) : bool :=
  match w with StError _ => true | _ => false end.

(** the widgets the news tab shows for one article *)
Definition article_widgets (a : article) : list widget :=
  [StMarkdown (default "No Title"%string (title a))
              (default ""%string (publisher a))
              (default "#"%string (link a));
   StRule].

(** ** [app.py], the data loader (lines 54-62)

    [download] stands for the result of [yf.download]: its column header
    is flat or has two levels (field, ticker).  The memoising decorator
    is not modelled. *)

Inductive header :=
| FlatIndex (names : list string)
| MultiIndex (keys : list (string * string)).

Record downloaded := {
  dl_index_name : option string;
  dl_index : list Z;
  dl_header : header;
  dl_data : list (list cell)
}.

(** [columns.get_level_values(0)] *)
Definition get_level_values_0 (keys : list (string * string)) : list string :=
  map fst keys.

Definition load_data (download : downloaded) : DataFrame :=
  let names :=
    match dl_header download with
    | MultiIndex keys => get_level_values_0 keys
    | FlatIndex names => names
    end in
  {| index_name := dl_index_name download;
     index := dl_index download;
     columns := combine names (dl_data download) |}.

(** ** Further sample data *)

(** a table with one column of cells, indexed [0..n-1] *)
Definition one_column (name : string) (cs : list cell) : DataFrame :=
  {| index_name := None;
     index := map Z.of_nat (seq 0 (length cs));
     columns := [(name, cs)] |}.

(** a table whose index is named like one of its columns *)
Definition clash_table : DataFrame :=
  {| index_name := Some "Close"%string;
     index := [0; 1]%Z;
     columns := [("Close"%string, [Some 1; Some 2])] |}.

(** two observations, the last without a volume *)
Definition no_volume_yet : DataFrame :=
  {| index_name := Some "Date"%string;
     index := [0; 1]%Z;
     columns := [("Close"%string, [Some 10; Some 11]);
                 ("High"%string, [Some 12; Some 12]);
                 ("Low"%string, [Some 9; Some 9]);
                 ("Open"%string, [Some 10; Some 10]);
                 ("Volume"%string, [Some 500; None])] |}.


(** a single-ticker download with a two-level header *)
Definition two_level_download : downloaded :=
  {| dl_index_name := Some "Date"%string;
     dl_index := [0; 1]%Z;
     dl_header := MultiIndex [("Close", "AAPL"); ("Volume", "AAPL")]%string;
     dl_data := [[Some 10; Some 11]; [Some 500; Some 600]] |}.

(** * Proofs *)

(** ** Rounding respects [==] *)



(** ** Sums *)

Section Sums.

Lemma inject_S (k : nat) :
  inject_Z (Z.of_nat (S k)) == inject_Z (Z.of_nat k) + 1.
Proof. rewrite Nat2Z.inj_succ, <- Z.add_1_r, inject_Z_plus. reflexivity. Qed.









End Sums.

(** ** Ordinary least squares *)

Section LeastSquares.

Import LinearRegression.

Variables xs ys : list Q.
Hypothesis same_length : length xs = length ys.
Hypothesis nonempty : xs <> [].

Let N : Q := inject_Z (Z.of_nat (length xs)).







Let a : Q := coef_ (fit_arrays xs ys).
Let b : Q := intercept_ (fit_arrays xs ys).






End LeastSquares.

(** ** The day numbers *)

Lemma length_arange (n : nat) : length (arange n) = n.
Proof. unfold arange. rewrite length_map, length_seq. reflexivity. Qed.



(** ** Columns *)

Lemma lookup_assign_col_eq name v cols :
  Frame.lookup_col name (Frame.assign_col name v cols) = Some v.
Proof.
  induction cols as [|[k old] rest IH]; simpl.
  - rewrite String.eqb_refl. reflexivity.
  - destruct (String.eqb k name) eqn:E; simpl; rewrite E; auto.
Qed.

Lemma lookup_assign_col_ne name name' v cols :
  name <> name' ->
  Frame.lookup_col name' (Frame.assign_col name v cols)
  = Frame.lookup_col name' cols.
Proof.
  intros NE. induction cols as [|[k old] rest IH]; simpl.
  - destruct (String.eqb_spec name name'); [contradiction|reflexivity].
  - destruct (String.eqb_spec k name) as [->|K]; simpl.
    + destruct (String.eqb_spec name name'); [contradiction|reflexivity].
    + rewrite IH. reflexivity.
Qed.

Lemma lookup_col_names name cols v :
  Frame.lookup_col name cols = Some v -> name ∈ map fst cols.
Proof.
  induction cols as [|[k old] rest IH]; simpl; [discriminate|].
  destruct (String.eqb_spec k name) as [->|K]; intros E.
  - apply list_elem_of_here.
  - apply list_elem_of_further, IH, E.
Qed.

Lemma to_numeric_some (l : list Q) : Frame.to_numeric (map Some l) = Some l.
Proof.
  unfold Frame.to_numeric. apply mapM_Some. induction l; constructor; auto.
Qed.

(** ** Running a computation step by step *)

Section Steps.

Context {A B : Type}.
Implicit Types (k : A -> M B) (s : state).

Lemma run_ret (a : A) k s : bind (ret a) k s = k a s.
Proof. reflexivity. Qed.

Lemma run_bind {C} (m : M C) (f : C -> M A) k s :
  bind (bind m f) k s = bind m (fun c => bind (f c) k) s.
Proof. unfold bind. destruct (m s) as [s' [e|c]]; reflexivity. Qed.

Lemma run_raise (e : exn) k s : bind (raise e) k s = (s, inl e).
Proof. reflexivity. Qed.

Lemma run_lift (r : result A) k s :
  bind (lift r) k s = match r with inr a => k a s | inl e => (s, inl e) end.
Proof. destruct r; reflexivity. Qed.

End Steps.

Section Primitives.

Context {B : Type}.
Implicit Types (s : state) (r : ref) (df : DataFrame).

Lemma run_emit (w : widget) (k : unit -> M B) s :
  bind (emit w) k s = k tt {| heap := heap s; ui := ui s ++ [w] |}.
Proof. reflexivity. Qed.

Lemma run_alloc df (k : ref -> M B) s :
  bind (alloc df) k s
  = k (length (heap s)) {| heap := heap s ++ [df]; ui := ui s |}.
Proof. reflexivity. Qed.

Lemma run_deref r df (k : DataFrame -> M B) s :
  heap s !! r = Some df -> bind (deref r) k s = k df s.
Proof. intros H. unfold bind, deref. rewrite H. reflexivity. Qed.

Lemma run_len r df (k : nat -> M B) s :
  heap s !! r = Some df -> bind (len_ r) k s = k (Frame.len df) s.
Proof.
  intros H. unfold len_. rewrite run_bind, (run_deref _ _ _ _ H).
  reflexivity.
Qed.

Lemma run_getitem r name df (k : list cell -> M B) s :
  heap s !! r = Some df ->
  bind (getitem_ r name) k s
  = match Frame.getitem name df with
    | inr v => k v s
    | inl e => (s, inl e)
    end.
Proof.
  intros H. unfold getitem_. rewrite run_bind, (run_deref _ _ _ _ H).
  apply run_lift.
Qed.

Lemma run_setitem r name v df (k : unit -> M B) s :
  heap s !! r = Some df ->
  length v = Frame.len df ->
  bind (setitem_ r name v) k s
  = k tt {| heap := <[r := {| index_name := index_name df;
                              index := index df;
                              columns := Frame.assign_col name v (columns df) |}]>
                      (heap s);
            ui := ui s |}.
Proof.
  intros H L. unfold setitem_.
  rewrite run_bind, (run_deref _ _ _ _ H), run_bind, run_lift.
  unfold Frame.setitem. rewrite L, Nat.eqb_refl. reflexivity.
Qed.

End Primitives.

(** ** [predict_stock_price], run on a table with a [Close] column *)

(** the same run, without any assumption on the table *)
Lemma predict_stock_price_closed (s : state) (data : ref) (df : DataFrame) :
  heap s !! data = Some df ->
  predict_stock_price data s
  = match Frame.reset_index df with
    | inl e => (s, inl e)
    | inr df1 =>
        ({| heap := heap s ++ [with_days df1]; ui := ui s |},
         regress (with_days df1))
    end.
Proof.
  intros H. unfold predict_stock_price, reset_index_.
  rewrite run_bind, (run_deref _ _ _ _ H), run_bind, run_lift.
  destruct (Frame.reset_index df) as [e|df1]; [reflexivity|].
  rewrite run_alloc.
  erewrite run_len by (simpl; apply list_lookup_middle; reflexivity).
  erewrite run_setitem;
    [| simpl; apply list_lookup_middle; reflexivity
     | rewrite length_map, length_arange; reflexivity ].
  cbn [heap ui].
  rewrite insert_app_r_alt, Nat.sub_diag by lia. cbn [insert list_insert].
  fold (with_days df1).
  erewrite run_getitem by (simpl; apply list_lookup_middle; reflexivity).
  unfold regress.
  destruct (Frame.getitem "Days" (with_days df1)) as [e|X]; [reflexivity|].
  erewrite run_getitem by (simpl; apply list_lookup_middle; reflexivity).
  destruct (Frame.getitem "Close" (with_days df1)) as [e|y]; [reflexivity|].
  rewrite run_lift.
  destruct (LinearRegression.fit X y) as [e|model]; [reflexivity|].
  erewrite run_len by (simpl; apply list_lookup_middle; reflexivity).
  reflexivity.
Qed.

Lemma predict_stock_price_unbound (s : state) (data : ref) :
  heap s !! data = None ->
  predict_stock_price data s = (s, inl (KeyError "unbound reference")).
Proof.
  intros H. unfold predict_stock_price, reset_index_, bind, deref.
  rewrite H. reflexivity.
Qed.

Lemma predicted_numbers (closes : list Q) :
  closes <> [] -> predicted (map Some closes) = inr (forecast closes).
Proof.
  intros NE. unfold predicted, LinearRegression.fit.
  rewrite length_map, !to_numeric_some.
  destruct (arange (length closes)) as [|x l] eqn:A.
  { apply (f_equal length) in A. rewrite length_arange in A.
    destruct closes; [congruence|discriminate]. }
  rewrite <- A, length_arange, Nat.eqb_refl. reflexivity.
Qed.

Lemma predict_stock_price_run (s : state) (data : ref) (df : DataFrame)
  (cs : list cell) :
  heap s !! data = Some df ->
  close_column df cs ->
  exists work,
    predict_stock_price data s
    = ({| heap := heap s ++ [work]; ui := ui s |}, predicted cs)
    /\ Frame.getitem "Days" work = inr (map Some (arange (length cs)))
    /\ Frame.getitem "Close" work = inr cs.
Proof.
  intros H (G & L & R).
  rewrite (predict_stock_price_closed _ _ _ H).
  unfold Frame.reset_index. rewrite bool_decide_false by exact R.
  set (df1 := {| index_name := None |}).
  assert (L1 : Frame.len df1 = length cs).
  { unfold Frame.len, df1; simpl. rewrite length_map, length_seq.
    symmetry. exact L. }
  assert (D : Frame.getitem "Days" (with_days df1)
              = inr (map Some (arange (length cs)))).
  { unfold Frame.getitem, with_days; cbn [columns].
    rewrite lookup_assign_col_eq, L1. reflexivity. }
  assert (C : Frame.getitem "Close" (with_days df1) = inr cs).
  { unfold Frame.getitem in *. unfold with_days; cbn [columns].
    rewrite lookup_assign_col_ne by discriminate.
    unfold df1; cbn [columns Frame.lookup_col].
    destruct (Frame.lookup_col "Close" (columns df)) as [v|] eqn:E;
      [|discriminate].
    destruct (String.eqb_spec (Frame.index_label df) "Close") as [E'|_];
      [|exact G].
    exfalso. apply R. rewrite E'. eapply lookup_col_names, E. }
  exists (with_days df1). repeat split; [|exact D|exact C].
  f_equal. unfold regress, predicted. rewrite D, C.
  change (Frame.len (with_days df1)) with (Frame.len df1).
  rewrite L1. reflexivity.
Qed.

(** ** Moving averages of a column without gaps *)

Lemma omap_id_Some {A} (l : list A) : omap id (map Some l) = l.
Proof. induction l as [|x l IH]; simpl; [|f_equal; exact IH]; reflexivity. Qed.

Lemma window_numbers (w i : nat) (qs : list Q) :
  omap id (Frame.window w i (map Some qs)) = drop (S i - w) (take (S i) qs).
Proof.
  unfold Frame.window.
  change (map Some qs) with (Some <$> qs).
  rewrite <- fmap_take, <- fmap_drop. apply omap_id_Some.
Qed.

Lemma length_rolling_mean (w : nat) (s : list cell) :
  length (Frame.rolling_mean w s) = length s.
Proof. unfold Frame.rolling_mean. rewrite length_map, length_seq. reflexivity. Qed.

Lemma rolling_mean_lookup (w i : nat) (qs : list Q) :
  (i < length qs)%nat ->
  Frame.rolling_mean (S w) (map Some qs) !! i
  = Some (if Nat.leb w i then Some (mean (take (S w) (drop (i - w) qs)))
          else None).
Proof.
  intros L. unfold Frame.rolling_mean.
  rewrite length_map, list_lookup_fmap, lookup_seq_lt by exact L.
  cbn [fmap option_fmap option_map plus]. rewrite window_numbers.
  f_equal. rewrite length_drop, length_take.
  replace (S i - S w)%nat with (i - w)%nat by lia.
  destruct (Nat.leb_spec w i) as [W|W].
  - replace (S w <=? S i `min` length qs - (i - w))%nat with true
      by (symmetry; apply Nat.leb_le; lia).
    do 2 f_equal. rewrite take_drop_commute. f_equal. f_equal. lia.
  - replace (S w <=? S i `min` length qs - (i - w))%nat with false
      by (symmetry; apply Nat.leb_gt; lia).
    reflexivity.
Qed.

Section Ewm.

Variable alpha : Q.

Lemma ewm_step_numbers (w x : Q) :
  exists v, Frame.ewm_step alpha {| Frame.weighted := Some w; Frame.old_wt := 1 |}
              (Some x)
            = {| Frame.weighted := Some v; Frame.old_wt := 1 |}
            /\ v == alpha * x + (1 - alpha) * w.
Proof.
  unfold Frame.ewm_step; cbn [Frame.weighted Frame.old_wt].
  destruct (Qeq_bool w x) eqn:E.
  - exists w. split; [reflexivity|]. apply Qeq_bool_eq in E. rewrite E. ring.
  - eexists. split; [reflexivity|]. field. lra.
Qed.

Lemma ewm_scan_numbers (w : Q) (qs : list Q) :
  exists es,
    Frame.ewm_scan alpha {| Frame.weighted := Some w; Frame.old_wt := 1 |}
      (map Some qs) = map Some es
    /\ length es = length qs
    /\ forall i c, qs !! i = Some c ->
         exists prev v,
           (w :: es) !! i = Some prev /\ es !! i = Some v
           /\ v == alpha * c + (1 - alpha) * prev.
Proof.
  revert w. induction qs as [|x qs IH]; intros w.
  - exists []. repeat split. intros i c E. destruct i; discriminate.
  - destruct (ewm_step_numbers w x) as (v & S & V).
    destruct (IH v) as (es & E & L & R).
    exists (v :: es). cbn [map Frame.ewm_scan]. rewrite S.
    cbn [Frame.weighted]. rewrite E. repeat split.
    + simpl. rewrite L. reflexivity.
    + intros [|i] c C.
      * injection C as <-. exists w, v. repeat split. exact V.
      * apply (R i c C).
Qed.

End Ewm.

Lemma ewm_mean_numbers (span : Q) (qs : list Q) :
  exists es,
    Frame.ewm_mean span (map Some qs) = map Some es
    /\ length es = length qs
    /\ es !! 0%nat = qs !! 0%nat
    /\ forall i c, qs !! S i = Some c ->
         exists prev v,
           es !! i = Some prev /\ es !! S i = Some v
           /\ v == Frame.ewm_alpha span * c + (1 - Frame.ewm_alpha span) * prev.
Proof.
  destruct qs as [|x qs].
  - exists []. repeat split. intros i c E. discriminate.
  - destruct (ewm_scan_numbers (Frame.ewm_alpha span) x qs) as (es & E & L & R).
    exists (x :: es). cbn [map Frame.ewm_mean]. rewrite E. repeat split.
    + simpl. rewrite L. reflexivity.
    + intros i c C. apply (R i c C).
Qed.

(** ** Selecting rows *)

Lemma take_rows_seq {A} (l : list A) (k m : nat) :
  (k + m)%nat = length l -> Frame.take_rows (seq k m) l = drop k l.
Proof.
  unfold Frame.take_rows. revert k. induction m as [|m IH]; intros k L.
  - rewrite drop_ge by lia. reflexivity.
  - destruct (lookup_lt_is_Some_2 l k) as [x X]; [lia|].
    cbn [seq omap list_omap]. rewrite X, IH by lia.
    symmetry. apply drop_S, X.
Qed.

Lemma take_rows_from {A} (l : list A) (k : nat) :
  Frame.take_rows (seq k (length l - k)) l = drop k l.
Proof.
  destruct (Nat.le_gt_cases k (length l)) as [L|L].
  - apply take_rows_seq. lia.
  - replace (length l - k)%nat with 0%nat by lia.
    rewrite drop_ge by lia. reflexivity.
Qed.

Lemma filter_seq_from (p : nat -> bool) (k n : nat) :
  (forall i, (i < n)%nat -> p i = Nat.leb k i) ->
  List.filter p (seq 0 n) = seq k (n - k).
Proof.
  induction n as [|n IH]; intros P; [reflexivity|].
  rewrite seq_S, List.filter_app, IH by (intros; apply P; lia).
  cbn [List.filter plus]. rewrite P by lia.
  destruct (Nat.leb_spec k n) as [L|L].
  - replace (S n - k)%nat with (S (n - k)) by lia.
    rewrite seq_S. do 2 f_equal. lia.
  - replace (S n - k)%nat with 0%nat by lia.
    replace (n - k)%nat with 0%nat by lia. reflexivity.
Qed.

(** ** The script, run on a fetched table *)

Lemma iloc_last (l : list cell) (x : cell) :
  Frame.iloc_neg 1 (l ++ [x]) = inr x.
Proof.
  unfold Frame.iloc_neg. rewrite length_app. cbn [length].
  replace (1 <=? length l + 1)%nat with true by (symmetry; apply Nat.leb_le; lia).
  rewrite list_lookup_middle by lia. reflexivity.
Qed.

Lemma iloc_last_but_one (l : list cell) (y x : cell) :
  Frame.iloc_neg 2 (l ++ [y; x]) = inr y.
Proof.
  unfold Frame.iloc_neg. rewrite length_app. cbn [length].
  replace (2 <=? length l + 2)%nat with true by (symmetry; apply Nat.leb_le; lia).
  rewrite list_lookup_middle by lia. reflexivity.
Qed.

Lemma iloc_last_of_two (l : list cell) (y x : cell) :
  Frame.iloc_neg 1 (l ++ [y; x]) = inr x.
Proof.
  change (l ++ [y; x]) with (l ++ [y] ++ [x]).
  rewrite app_assoc. apply iloc_last.
Qed.

Ltac step :=
  first [ rewrite run_bind | rewrite run_ret | rewrite run_emit
        | rewrite run_alloc | rewrite run_lift
        | erewrite run_deref by reflexivity
        | erewrite run_getitem by reflexivity
        | erewrite run_len by reflexivity ].

Lemma length_ewm_mean (span : Q) (qs : list Q) :
  length (Frame.ewm_mean span (map Some qs)) = length qs.
Proof.
  destruct (ewm_mean_numbers span qs) as (es & -> & L & _).
  rewrite length_map. exact L.
Qed.

Lemma getitem_eval (name : string) (df : DataFrame) (v : list cell) :
  Frame.lookup_col name (columns df) = Some v -> Frame.getitem name df = inr v.
Proof. unfold Frame.getitem. intros ->. reflexivity. Qed.

Lemma len_price_frame (bars : list Bar) :
  Frame.len (price_frame bars) = length bars.
Proof. unfold Frame.len, price_frame; simpl. apply length_map. Qed.

Lemma run_chart_tab {B} (bars : list Bar) (k : unit -> M B) (u : list widget) :
  bind (App.chart_tab 0) k {| heap := [price_frame bars]; ui := u |}
  = k tt {| heap := [charted bars];
            ui := u ++ [StPlotlyChart
     [("Close"%string, map Date bars, map Some (map Close bars));
      ("SMA 20"%string, map Date bars,
       Frame.rolling_mean 20 (map Some (map Close bars)));
      ("EMA 20"%string, map Date bars,
       Frame.ewm_mean 20 (map Some (map Close bars)))]] |}.
Proof.
  unfold App.chart_tab.
  set (close := map Some (map Close bars)).
  assert (Lc : length close = length bars)
    by (unfold close; rewrite !length_map; reflexivity).
  repeat step.
  rewrite (getitem_eval "Close" (price_frame bars) close) by reflexivity.
  repeat step.
  erewrite run_setitem;
    [| reflexivity
     | rewrite length_rolling_mean, len_price_frame; exact Lc ].
  cbn [heap ui insert list_insert index_name index columns].
  repeat step.
  erewrite (getitem_eval "Close" _ close) by reflexivity.
  repeat step.
  erewrite run_setitem;
    [| reflexivity
     | unfold close; rewrite length_ewm_mean; unfold Frame.len; simpl;
       rewrite !length_map; reflexivity ].
  cbn [heap ui insert list_insert index_name index columns].
  repeat step.
  erewrite (getitem_eval "Close" _ close) by reflexivity.
  repeat step.
  erewrite (getitem_eval "SMA_20" _ (Frame.rolling_mean 20 close))
    by reflexivity.
  repeat step.
  erewrite (getitem_eval "EMA_20" _ (Frame.ewm_mean 20 close))
    by reflexivity.
  repeat step. reflexivity.
Qed.

Lemma complete_row_charted (bars : list Bar) (i : nat) :
  (i < length bars)%nat ->
  Frame.complete_row (charted bars) i = Nat.leb 19 i.
Proof.
  intros L.
  destruct (lookup_lt_is_Some_2 bars i L) as [b Hb].
  assert (Raw : forall f : Bar -> Q,
             map Some (map f bars) !! i = Some (Some (f b))).
  { intros f. change (map Some (map f bars)) with (Some <$> (f <$> bars)).
    rewrite !list_lookup_fmap, Hb. reflexivity. }
  destruct (ewm_mean_numbers 20 (map Close bars)) as (es & E & Le & _).
  destruct (lookup_lt_is_Some_2 es i) as [e He];
    [rewrite Le, length_map; exact L|].
  unfold Frame.complete_row, charted, price_frame.
  cbn [columns app forallb snd]. rewrite !Raw, E.
  rewrite rolling_mean_lookup by (rewrite length_map; exact L).
  change (map Some es) with (Some <$> es). rewrite list_lookup_fmap, He.
  cbn [fmap option_fmap option_map andb].
  destruct (19 <=? i)%nat; reflexivity.
Qed.

Lemma dropna_charted (bars : list Bar) :
  Frame.dropna (charted bars) = drop_rows 19 (charted bars).
Proof.
  unfold Frame.dropna.
  assert (Len : Frame.len (charted bars) = length bars)
    by apply len_price_frame.
  rewrite Len.
  rewrite (filter_seq_from _ 19)
    by (intros i L; apply complete_row_charted, L).
  unfold Frame.select_rows, drop_rows. f_equal.
  - rewrite <- Len. apply take_rows_from.
  - unfold charted, price_frame. cbn [columns app map fst snd].
    assert (T : forall l : list cell,
               length l = length bars ->
               Frame.take_rows (seq 19 (length bars - 19)) l = drop 19 l).
    { intros l <-. apply take_rows_from. }
    rewrite !T; try reflexivity; rewrite ?length_rolling_mean,
      ?length_ewm_mean, ?length_map; reflexivity.
Qed.

Lemma close_column_cleaned (bars : list Bar) :
  close_column (drop_rows 19 (charted bars))
               (map Some (map Close (drop 19 bars))).
Proof.
  split; [|split].
  - apply getitem_eval. unfold drop_rows, charted, price_frame.
    cbn [columns app map fst snd Frame.lookup_col].
    change (String.eqb "Adj Close" "Close") with false.
    change (String.eqb "Close" "Close") with true. cbv iota.
    change (map ?f ?l) with (f <$> l).
    rewrite !fmap_drop. reflexivity.
  - unfold Frame.len, drop_rows, charted, price_frame; cbn [index].
    rewrite !length_map, !length_drop, length_map. reflexivity.
  - apply (bool_decide_unpack _). reflexivity.
Qed.

Lemma run_call {A B} (m : M A) (k : A -> M B) (s s' : state) (r : result A) :
  m s = (s', r) ->
  bind m k s = match r with inr a => k a s' | inl e => (s', inl e) end.
Proof. intros E. unfold bind. rewrite E. destruct r; reflexivity. Qed.

Lemma show_news_run (news : list article) (s : state) :
  exists ws,
    App.show_news news s = ({| heap := heap s; ui := ui s ++ ws |}, inr tt)
    /\ Forall (fun w => is_forecast w = false) ws.
Proof.
  revert s. induction news as [|a news IH]; intros s.
  - exists []. cbn. rewrite app_nil_r. destruct s; split; constructor.
  - cbn [App.show_news]. repeat step.
    edestruct IH as (ws & -> & F). cbn [heap ui].
    eexists (_ :: _ :: ws). rewrite <- !app_assoc. split; [reflexivity|].
    repeat constructor. exact F.
Qed.

Lemma news_tab_run (feed : list article) (s : state) :
  exists ws,
    App.news_tab feed s = ({| heap := heap s; ui := ui s ++ ws |}, inr tt)
    /\ Forall (fun w => is_forecast w = false) ws.
Proof.
  unfold App.news_tab. destruct (take 5 feed) as [|a news] eqn:E.
  - eexists [_]. split; [reflexivity|]. repeat constructor.
  - apply show_news_run.
Qed.

Lemma run_fetched (symbol : string) (front : list Bar) (prev last : Bar)
  (feed : list article) :
  symbol <> ""%string ->
  let bars := front ++ [prev; last] in
  exists work,
    Frame.getitem "Days" work
    = inr (map Some (arange (length (drop 19 bars))))
    /\ Frame.getitem "Close" work = inr (map Some (map Close (drop 19 bars)))
    /\ App.run symbol (price_frame bars) feed
       = let store := [charted bars; drop_rows 19 (charted bars); work] in
         let page := page_before_forecast bars prev last in
         match predicted (map Some (map Close (drop 19 bars))) with
         | inl e => ({| heap := store; ui := page |}, inl e)
         | inr p =>
             App.news_tab feed
               {| heap := store;
                  ui := page ++
                    [StSuccess (py_round p 2);
                     StInfo (App.fmt 1 (App.confidence
                                        (Some (Close last - Close prev))))] |}
         end.
Proof.
  intros NE bars.
  assert (P := predict_stock_price_run
                 {| heap := [charted bars; drop_rows 19 (charted bars)];
                    ui := page_before_forecast bars prev last |}
                 1 (drop_rows 19 (charted bars)) _ eq_refl
                 (close_column_cleaned bars)).
  destruct P as (work & P & D & C).
  rewrite !length_map in D.
  exists work. split; [exact D|]. split; [exact C|].
  unfold App.run, App.main_logic.
  destruct (String.eqb_spec symbol "") as [E|_]; [contradiction|].
  rewrite run_alloc. cbn [heap ui length app].
  (* length check *)
  unfold App.length_check. repeat step.
  assert (Long : (2 <= length bars)%nat)
    by (unfold bars; rewrite length_app; simpl; lia).
  replace (Frame.empty (price_frame bars)) with false
    by (destruct bars; [simpl in Long; lia|reflexivity]).
  replace (Frame.len (price_frame bars) <? 2)%nat with false
    by (symmetry; apply Nat.ltb_ge; rewrite len_price_frame; exact Long).
  cbn [orb]. repeat step.
  (* metrics *)
  assert (I1 : forall f : Bar -> Q,
             Frame.iloc_neg 1 (map Some (map f bars)) = inr (Some (f last))).
  { intros f. unfold bars. rewrite !map_app. apply iloc_last_of_two. }
  assert (I2 : forall f : Bar -> Q,
             Frame.iloc_neg 2 (map Some (map f bars)) = inr (Some (f prev))).
  { intros f. unfold bars. rewrite !map_app. apply iloc_last_but_one. }
  unfold App.metrics. repeat step.
  rewrite (getitem_eval "Close" _ (map Some (map Close bars))) by reflexivity.
  repeat step. rewrite I1. repeat step.
  rewrite (getitem_eval "Close" _ (map Some (map Close bars))) by reflexivity.
  repeat step. rewrite I2. repeat step.
  rewrite (getitem_eval "Open" _ (map Some (map Open bars))) by reflexivity.
  repeat step. rewrite I1. repeat step.
  rewrite (getitem_eval "High" _ (map Some (map High bars))) by reflexivity.
  repeat step. rewrite I1. repeat step.
  rewrite (getitem_eval "Volume" _
             (map Some (map (fun b => inject_Z (Volume b)) bars)))
    by reflexivity.
  repeat step. rewrite I1. repeat step. cbn [App.int]. repeat step.
  (* chart and data tabs *)
  cbn [heap ui app App.fsub]. rewrite run_chart_tab.
  unfold App.data_tab. repeat step.
  (* forecast *)
  unfold App.prediction_tab, dropna_. repeat step.
  rewrite dropna_charted. cbn [heap ui length app].
  fold (page_before_forecast bars prev last).
  rewrite (run_call _ _ _ _ _ P). cbn [heap ui app].
  destruct (predicted (map Some (map Close (drop 19 bars)))) as [e|p];
    [reflexivity|].
  repeat step. cbn [heap ui]. rewrite <- app_assoc. reflexivity.
Qed.

(** ** Claims about [predict_stock_price] *)






(** C9. [predict_stock_price] has no side effects: every table that was in
    the store before the call, the caller's among them, is the same after
    it, nothing is put on the page, and the value returned is determined
    by the caller's table alone, whatever else the store holds. *)
Theorem predict_no_side_effects (s s' : state) (data data' other : ref)
  (kept : DataFrame) :
  heap s !! other = Some kept ->
  heap s' !! data' = heap s !! data ->
  heap (fst (predict_stock_price data s)) !! other = Some kept
  /\ heap (fst (predict_stock_price data s)) !! data = heap s !! data
  /\ ui (fst (predict_stock_price data s)) = ui s
  /\ snd (predict_stock_price data' s') = snd (predict_stock_price data s)
  /\ snd (predict_stock_price data (fst (predict_stock_price data s)))
     = snd (predict_stock_price data s).
Proof.
  intros K E.
  assert (Local : forall t r,
             snd (predict_stock_price r t)
             = match heap t !! r with
               | None => inl (KeyError "unbound reference")
               | Some df => match Frame.reset_index df with
                            | inl e => inl e
                            | inr df1 => regress (with_days df1)
                            end
               end).
  { intros t r. destruct (heap t !! r) as [df|] eqn:H.
    - rewrite (predict_stock_price_closed _ _ _ H).
      destruct (Frame.reset_index df); reflexivity.
    - rewrite (predict_stock_price_unbound _ _ H). reflexivity. }
  assert (Keep : forall r, is_Some (heap s !! r) ->
             heap (fst (predict_stock_price data s)) !! r = heap s !! r).
  { intros r [x X]. destruct (heap s !! data) as [df|] eqn:H.
    - rewrite (predict_stock_price_closed _ _ _ H).
      destruct (Frame.reset_index df); cbn [fst heap]; [reflexivity|].
      rewrite X. apply lookup_app_l_Some, X.
    - rewrite (predict_stock_price_unbound _ _ H). reflexivity. }
  assert (Same : heap (fst (predict_stock_price data s)) !! data
                 = heap s !! data).
  { destruct (heap s !! data) as [df|] eqn:H.
    - rewrite <- H. apply Keep. rewrite H. eauto.
    - rewrite (predict_stock_price_unbound _ _ H). exact H. }
  split; [rewrite <- K; apply Keep; rewrite K; eauto|].
  split; [exact Same|]. split.
  - destruct (heap s !! data) as [df|] eqn:H.
    + rewrite (predict_stock_price_closed _ _ _ H).
      destruct (Frame.reset_index df); reflexivity.
    + rewrite (predict_stock_price_unbound _ _ H). reflexivity.
  - split; rewrite !Local; [rewrite E|rewrite Same]; reflexivity.
Qed.

(** C10. Two tables with the same number of records and the same [Close]
    column get the same result from [predict_stock_price], whatever their
    other columns and their dates are. *)
Theorem predict_depends_on_close_only (s1 s2 : state) (d1 d2 : ref)
  (df1 df2 : DataFrame) (closes : list cell) :
  heap s1 !! d1 = Some df1 ->
  heap s2 !! d2 = Some df2 ->
  close_column df1 closes ->
  close_column df2 closes ->
  snd (predict_stock_price d1 s1) = snd (predict_stock_price d2 s2).
Proof.
  intros H1 H2 C1 C2.
  destruct (predict_stock_price_run _ _ _ _ H1 C1) as (w1 & -> & _).
  destruct (predict_stock_price_run _ _ _ _ H2 C2) as (w2 & -> & _).
  reflexivity.
Qed.

(** ** Claims about the script *)

Lemma two_last {A} (l : list A) :
  (2 <= length l)%nat -> exists front y x, l = front ++ [y; x].
Proof.
  intros L.
  exists (take (length l - 2) l).
  destruct (drop (length l - 2) l) as [|y [|x [|z t]]] eqn:D;
    apply (f_equal length) in D as D'; rewrite length_drop in D';
    simpl in D'; try lia.
  exists y, x. rewrite <- D. symmetry. apply take_drop.
Qed.

Lemma rolling_mean_short (w : nat) (qs : list Q) :
  (length qs <= w)%nat ->
  Frame.rolling_mean (S w) (map Some qs) = replicate (length qs) None.
Proof.
  intros L. apply list_eq. intros i.
  destruct (Nat.lt_ge_cases i (length qs)) as [I|I].
  - rewrite rolling_mean_lookup by exact I.
    replace (w <=? i)%nat with false by (symmetry; apply Nat.leb_gt; lia).
    symmetry. apply lookup_replicate_2, I.
  - rewrite !lookup_ge_None_2; [reflexivity| |].
    + rewrite length_replicate. exact I.
    + rewrite length_rolling_mean, length_map. exact I.
Qed.

Lemma chart_tab_state (bars : list Bar) (u : list widget) :
  heap (fst (App.chart_tab 0 {| heap := [price_frame bars]; ui := u |}))
  = [charted bars].
Proof.
  pose proof (run_chart_tab bars ret u) as R. unfold bind in R.
  destruct (App.chart_tab 0 _) as [s' [e|[]]]; cbn [fst];
    unfold ret in R; inversion R; reflexivity.
Qed.

(** C3. When the fetched table is empty or has fewer than two rows, the
    script shows the error message and stops: nothing else is put on the
    page (no metric, no chart, no forecast) and no other table is made,
    so [predict_stock_price] is not called. *)
Theorem short_data_stops (symbol : string) (fetched : DataFrame)
  (feed : list article) :
  symbol <> ""%string ->
  Frame.empty fetched = true \/ (Frame.len fetched < 2)%nat ->
  App.run symbol fetched feed
  = ({| heap := [fetched];
        ui := [StError "Invalid stock symbol or insufficient data"] |},
     inl StopException).
Proof.
  intros NE Short. unfold App.run, App.main_logic.
  destruct (String.eqb_spec symbol "") as [E|_]; [contradiction|].
  rewrite run_alloc. cbn [heap ui length app].
  unfold App.length_check. repeat step.
  replace (Frame.empty fetched || (Frame.len fetched <? 2)%nat) with true.
  - reflexivity.
  - symmetry. apply orb_true_iff.
    destruct Short as [E|L]; [left; exact E|right; apply Nat.ltb_lt, L].
Qed.

(** C4. For a fetched series of [n] observations with [2 <= n <= 19] the
    script passes the length check and shows metrics, chart and table;
    the [SMA_20] column is [NaN] in every row, [dropna()] leaves no row,
    [predict_stock_price] is called on that empty table and raises, and
    no forecast is shown. *)
Theorem short_series_forecast_fails (symbol : string) (bars : list Bar)
  (feed : list article) :
  symbol <> ""%string ->
  (2 <= length bars)%nat ->
  (length bars <= 19)%nat ->
  exists prev last work,
    App.run symbol (price_frame bars) feed
    = ({| heap := [charted bars; Frame.dropna (charted bars); work];
          ui := page_before_forecast bars prev last |},
       inl (ValueError "Found array with 0 sample(s)"))
    /\ Frame.getitem "SMA_20" (charted bars)
       = inr (replicate (length bars) None)
    /\ Frame.len (Frame.dropna (charted bars)) = 0%nat
    /\ Frame.getitem "Close" work = inr []
    /\ Forall (fun w => is_forecast w = false)
              (page_before_forecast bars prev last).
Proof.
  intros NE L2 L19.
  destruct (two_last bars L2) as (front & prev & last & ->).
  destruct (run_fetched symbol front prev last feed NE)
    as (work & _ & C & R). cbv zeta in R.
  set (bars := front ++ [prev; last]) in *.
  assert (D : drop 19 bars = []) by (apply drop_ge; exact L19).
  rewrite D in R, C. cbn [map] in R, C.
  change (predicted []) with
    (inl (B := Q) (ValueError "Found array with 0 sample(s)")) in R.
  exists prev, last, work. rewrite dropna_charted. repeat split.
  - exact R.
  - apply getitem_eval. unfold charted, price_frame.
    cbn [columns app Frame.lookup_col].
    change (Frame.rolling_mean 20 (map Some (map Close bars)))
      with (Frame.rolling_mean 20 (map Some (map Close bars))).
    rewrite rolling_mean_short by (rewrite length_map; exact L19).
    rewrite length_map. reflexivity.
  - unfold Frame.len, drop_rows, charted, price_frame; cbn [index].
    rewrite length_drop, length_map. lia.
  - exact C.
  - unfold page_before_forecast. repeat constructor.
Qed.


(** C6. For the last two closes, with [delta = last_close - prev_close],
    the confidence is [min(95, 70 + |delta| * 2)]; it lies between 70 and
    95; a delta of 0 gives 70, of 15 gives 95, of -5 gives 80. *)
Theorem confidence_heuristic (last_close prev_close : Q) :
  let delta := last_close - prev_close in
  App.confidence (App.fsub (Some last_close) (Some prev_close))
  = Some (Qmin 95 (70 + Qabs delta * 2))
  /\ 70 <= Qmin 95 (70 + Qabs delta * 2) <= 95
  /\ App.confidence (Some 0) = Some 70
  /\ App.confidence (Some 15) = Some 95
  /\ App.confidence (Some (- (5))) = Some 80.
Proof.
  intros delta. split; [|split; [|repeat split]].
  - unfold App.confidence, App.py_min, App.flt, App.fsub, App.fabs, App.fadd,
      App.fmul. cbn [option_map]. fold delta.
    set (v := 70 + Qabs delta * 2).
    unfold Qmin, GenericMinMax.gmin.
    destruct (Qle_bool 95 v) eqn:E; cbn [negb];
      destruct (Qcompare 95 v) eqn:C; try reflexivity; exfalso.
    + apply Qle_bool_iff in E. apply Qgt_alt in C. lra.
    + apply Qeq_alt in C. rewrite <- C in E. discriminate.
    + apply Qlt_alt, Qlt_le_weak, Qle_bool_iff in C. congruence.
  - pose proof (Qabs_nonneg delta) as A.
    destruct (Q.min_spec 95 (70 + Qabs delta * 2)) as [[O ->]|[O ->]]; lra.
Qed.

(** C8. In the table the chart tab leaves behind, [SMA_20] at row
    [i >= 19] is the arithmetic mean of the closes of rows [i-19 .. i] and
    is absent for [i < 19]; [EMA_20] starts at the first close and then
    follows [EMA_i = alpha * Close_i + (1 - alpha) * EMA_(i-1)] with
    [alpha = 2 / (20 + 1)]. *)
Theorem moving_averages (bars : list Bar) (i : nat) (b : Bar) :
  bars !! i = Some b ->
  let closes := map Close bars in
  let alpha := 2 / (20 + 1) in
  exists sma ema,
    heap (fst (App.chart_tab 0 {| heap := [price_frame bars]; ui := [] |}))
    = [charted bars]
    /\ Frame.getitem "SMA_20" (charted bars) = inr sma
    /\ Frame.getitem "EMA_20" (charted bars) = inr ema
    /\ sma !! i
       = Some (if Nat.leb 19 i
               then Some (Qsum (take 20 (drop (i - 19) closes)) / 20)
               else None)
    /\ exists e,
         ema !! i = Some (Some e)
         /\ match i with
            | O => e = Close b
            | S j => exists prev,
                       ema !! j = Some (Some prev)
                       /\ e == alpha * Close b + (1 - alpha) * prev
            end.
Proof.
  intros H closes alpha.
  assert (L : (i < length closes)%nat).
  { unfold closes. rewrite length_map. eapply lookup_lt_Some, H. }
  assert (C : closes !! i = Some (Close b)).
  { unfold closes. change (map Close bars) with (Close <$> bars).
    rewrite list_lookup_fmap, H. reflexivity. }
  destruct (ewm_mean_numbers 20 closes) as (es & E & Le & E0 & Es).
  exists (Frame.rolling_mean 20 (map Some closes)), (map Some es).
  split; [apply chart_tab_state|].
  split; [apply getitem_eval; reflexivity|].
  split; [apply getitem_eval; rewrite <- E; reflexivity|]. split.
  - rewrite rolling_mean_lookup by exact L. f_equal.
    destruct (Nat.leb_spec 19 i) as [I|I]; [|reflexivity].
    f_equal. unfold mean. rewrite length_take, length_drop.
    replace (20 `min` (length closes - (i - 19)))%nat with 20%nat by lia.
    reflexivity.
  - change (map Some es) with (Some <$> es).
    destruct i as [|j].
    + exists (Close b). rewrite list_lookup_fmap, E0, C. split; reflexivity.
    + destruct (Es j (Close b) C) as (prev & v & P & V & R).
      exists v. rewrite !list_lookup_fmap, V, P. split; [reflexivity|].
      exists prev. split; [reflexivity|exact R].
Qed.

(** ** The claims at sample inputs *)




Lemma predict_no_side_effects_witness :
  let table := price_frame (line_bars 1 10 3) in
  let s := {| heap := [close_only [1; 2]; table]; ui := [StDivider] |} in
  let s' := {| heap := [table]; ui := [] |} in
  heap (fst (predict_stock_price 1 s)) !! 0%nat = Some (close_only [1; 2])
  /\ heap (fst (predict_stock_price 1 s)) !! 1%nat = heap s !! 1%nat
  /\ ui (fst (predict_stock_price 1 s)) = ui s
  /\ snd (predict_stock_price 0 s') = snd (predict_stock_price 1 s)
  /\ snd (predict_stock_price 1 (fst (predict_stock_price 1 s)))
     = snd (predict_stock_price 1 s).
Proof.
  apply (predict_no_side_effects
           {| heap := [close_only [1; 2]; price_frame (line_bars 1 10 3)];
              ui := [StDivider] |}
           {| heap := [price_frame (line_bars 1 10 3)]; ui := [] |}
           1 0 0 (close_only [1; 2])).
  - reflexivity.
  - reflexivity.
Defined.

Lemma predict_depends_on_close_only_witness :
  snd (predict_stock_price 0
         {| heap := [price_frame (line_bars 1 10 3)]; ui := [] |})
  = snd (predict_stock_price 0
           {| heap := [close_only (map Close (line_bars 1 10 3))];
              ui := [] |}).
Proof.
  apply (predict_depends_on_close_only _ _ 0 0
           (price_frame (line_bars 1 10 3))
           (close_only (map Close (line_bars 1 10 3)))
           (map Some (map Close (line_bars 1 10 3)))).
  - reflexivity.
  - reflexivity.
  - repeat split; [apply (bool_decide_unpack _); reflexivity].
  - repeat split; [apply (bool_decide_unpack _); reflexivity].
Defined.

Lemma short_data_stops_witness :
  App.run "AAPL" (price_frame (line_bars 1 10 1)) []
  = ({| heap := [price_frame (line_bars 1 10 1)];
        ui := [StError "Invalid stock symbol or insufficient data"] |},
     inl StopException).
Proof.
  apply short_data_stops.
  - discriminate.
  - right. unfold Frame.len. simpl. lia.
Defined.

Lemma short_series_forecast_fails_witness :
  let bars := line_bars 1 10 5 in
  exists prev last work,
    App.run "AAPL" (price_frame bars) []
    = ({| heap := [charted bars; Frame.dropna (charted bars); work];
          ui := page_before_forecast bars prev last |},
       inl (ValueError "Found array with 0 sample(s)"))
    /\ Frame.getitem "SMA_20" (charted bars)
       = inr (replicate (length bars) None)
    /\ Frame.len (Frame.dropna (charted bars)) = 0%nat
    /\ Frame.getitem "Close" work = inr []
    /\ Forall (fun w => is_forecast w = false)
              (page_before_forecast bars prev last).
Proof.
  apply (short_series_forecast_fails "AAPL" (line_bars 1 10 5) []).
  - discriminate.
  - simpl. lia.
  - simpl. lia.
Defined.


Lemma moving_averages_witness :
  let bars := line_bars 1 10 21 in
  let closes := map Close bars in
  let alpha := 2 / (20 + 1) in
  exists sma ema,
    heap (fst (App.chart_tab 0 {| heap := [price_frame bars]; ui := [] |}))
    = [charted bars]
    /\ Frame.getitem "SMA_20" (charted bars) = inr sma
    /\ Frame.getitem "EMA_20" (charted bars) = inr ema
    /\ sma !! 20%nat
       = Some (Some (Qsum (take 20 (drop 1 closes)) / 20))
    /\ exists e,
         ema !! 20%nat = Some (Some e)
         /\ exists prev,
              ema !! 19%nat = Some (Some prev)
              /\ e == alpha * Close (line_bar 1 10 20) + (1 - alpha) * prev.
Proof.
  apply (moving_averages (line_bars 1 10 21) 20 (line_bar 1 10 20)).
  reflexivity.
Defined.

(** ** The embedding at work *)

Example rint_ties_to_even :
  map rint [1 # 2; 3 # 2; 5 # 2; - (1 # 2); 17 # 10] = [0; 2; 2; 0; 2]%Z.
Proof. reflexivity. Qed.

Example forecast_line : forecast [1; 3; 5; 7] = 1100 # 100.
Proof. reflexivity. Qed.

Example forecast_single : forecast [42 # 5] = 840 # 100.
Proof. reflexivity. Qed.

Example forecast_empty :
  predicted [] = inl (ValueError "Found array with 0 sample(s)").
Proof. reflexivity. Qed.

Example forecast_nan :
  predicted [Some 1; None] = inl (ValueError "Input y contains NaN").
Proof. reflexivity. Qed.

(** pandas skips a gap and ages the older weight over it *)
Example ewm_gap :
  Frame.ewm_mean 3 [Some 1; None; Some 5]
  = [Some 1; Some 1; Some (((1 * (1 - (2 / (3 + 1))) * (1 - (2 / (3 + 1)))) * 1
                            + (2 / (3 + 1)) * 5)
                           / ((1 * (1 - (2 / (3 + 1))) * (1 - (2 / (3 + 1))))
                              + (2 / (3 + 1))))].
Proof. reflexivity. Qed.

Example rolling_gap :
  Frame.rolling_mean 2 [Some 1; Some 3; None; Some 5; Some 7]
  = [None; Some (4 / 2); None; None; Some (12 / 2)].
Proof. reflexivity. Qed.

Example dropna_rows :
  Frame.dropna {| index_name := None; index := [0; 1; 2]%Z;
                  columns := [("a"%string, [Some 1; None; Some 3]);
                              ("b"%string, [Some 4; Some 5; Some 6])] |}
  = {| index_name := None; index := [0; 2]%Z;
       columns := [("a"%string, [Some 1; Some 3]);
                   ("b"%string, [Some 4; Some 6])] |}.
Proof. reflexivity. Qed.

Example run_one_row :
  ui (fst (App.run "AAPL" (price_frame (line_bars 1 10 1)) []))
  = [StError "Invalid stock symbol or insufficient data"].
Proof. reflexivity. Qed.

Example run_no_symbol :
  App.run "" (price_frame (line_bars 1 10 30)) []
  = ({| heap := []; ui := [] |}, inr tt).
Proof. reflexivity. Qed.

Example run_22_rows :
  let r := App.run "AAPL" (price_frame (line_bars 1 10 22)) [] in
  (List.filter is_forecast (ui (fst r)), map Frame.len (heap (fst r)), snd r)
  = ([StSuccess (3300 # 100); StInfo (Some (720 # 10))],
     [22; 3; 3]%nat, inr tt).
Proof. vm_compute. reflexivity. Qed.

(** * Further properties *)

(** ** Rounding *)






(** ** [predict_stock_price]: failures and edge cases *)



(** X1. On a table with a [Close] column and no rows
    [predict_stock_price] raises the no-samples [ValueError], after it has
    made its copy. *)
Theorem predict_on_empty_table (s : state) (data : ref) (df : DataFrame) :
  heap s !! data = Some df ->
  close_column df [] ->
  exists work,
    predict_stock_price data s
    = ({| heap := heap s ++ [work]; ui := ui s |},
       inl (ValueError "Found array with 0 sample(s)")).
Proof.
  intros H C.
  destruct (predict_stock_price_run s data df [] H C) as (work & R & _).
  exists work. exact R.
Qed.

(** X2. On a table without a [Close] column [predict_stock_price] raises
    [KeyError "Close"]. *)
Theorem predict_without_close_column (s : state) (data : ref)
  (df : DataFrame) :
  heap s !! data = Some df ->
  Frame.getitem "Close" df = inl (KeyError "Close") ->
  Frame.index_label df ∉ Frame.names df ->
  Frame.index_label df <> "Close"%string ->
  snd (predict_stock_price data s) = inl (KeyError "Close").
Proof.
  intros H G R NE.
  rewrite (predict_stock_price_closed _ _ _ H).
  unfold Frame.reset_index. rewrite bool_decide_false by exact R.
  cbn [snd]. unfold regress, Frame.getitem, with_days; cbn [columns].
  rewrite lookup_assign_col_eq.
  rewrite lookup_assign_col_ne by discriminate.
  cbn [Frame.lookup_col].
  destruct (String.eqb_spec (Frame.index_label df) "Close") as [E|_];
    [contradiction|].
  unfold Frame.getitem in G.
  destruct (Frame.lookup_col "Close" (columns df)); [discriminate|].
  reflexivity.
Qed.

(** X3. [predict_stock_price] does not filter: a missing value in the
    [Close] column makes the regression raise. *)
Theorem predict_with_missing_close (s : state) (data : ref) (df : DataFrame)
  (cs : list cell) :
  heap s !! data = Some df ->
  close_column df cs ->
  None ∈ cs ->
  snd (predict_stock_price data s) = inl (ValueError "Input y contains NaN").
Proof.
  intros H C N.
  destruct (predict_stock_price_run s data df cs H C) as (work & -> & _).
  cbn [snd]. unfold predicted, LinearRegression.fit.
  rewrite to_numeric_some.
  destruct (arange (length cs)) as [|x l] eqn:A.
  { apply (f_equal length) in A. rewrite length_arange in A.
    destruct cs; [inversion N|discriminate]. }
  replace (Frame.to_numeric cs) with (@None (list Q)); [reflexivity|].
  symmetry. apply mapM_None. apply Exists_exists. exists None.
  split; [exact N|reflexivity].
Qed.


(** X5. When the index is named like one of the columns, [reset_index]
    raises and [predict_stock_price] leaves the store as it was. *)
Theorem predict_index_name_taken (s : state) (data : ref) (df : DataFrame) :
  heap s !! data = Some df ->
  Frame.index_label df ∈ Frame.names df ->
  predict_stock_price data s
  = (s, inl (ValueError "cannot insert column, already exists")).
Proof.
  intros H R. rewrite (predict_stock_price_closed _ _ _ H).
  unfold Frame.reset_index. rewrite bool_decide_true by exact R.
  reflexivity.
Qed.



(** ** The confidence heuristic *)

Lemma confidence_value (d : Q) :
  App.confidence (Some d) = Some (Qmin 95 (70 + Qabs d * 2)).
Proof.
  unfold App.confidence, App.py_min, App.flt, App.fabs, App.fadd, App.fmul.
  cbn [option_map]. set (v := 70 + Qabs d * 2).
  unfold Qmin, GenericMinMax.gmin.
  destruct (Qle_bool 95 v) eqn:E; cbn [negb];
    destruct (Qcompare 95 v) eqn:C; try reflexivity; exfalso.
  - apply Qle_bool_iff in E. apply Qgt_alt in C. lra.
  - apply Qeq_alt in C. rewrite <- C in E. discriminate.
  - apply Qlt_alt, Qlt_le_weak, Qle_bool_iff in C. congruence.
Qed.

(** X8. The confidence does not decrease when the absolute change of the
    close grows, and depends on the change only through its absolute
    value. *)
Theorem confidence_grows_with_change (d1 d2 : Q) :
  Qabs d1 <= Qabs d2 ->
  exists v1 v2,
    App.confidence (Some d1) = Some v1
    /\ App.confidence (Some d2) = Some v2
    /\ v1 <= v2
    /\ (Qabs d2 <= Qabs d1 -> v1 == v2).
Proof.
  intros L. do 2 eexists.
  split; [apply confidence_value|]. split; [apply confidence_value|].
  split.
  - apply Q.min_le_compat_l. lra.
  - intros G.
    assert (E : 70 + Qabs d1 * 2 == 70 + Qabs d2 * 2) by lra.
    rewrite E. reflexivity.
Qed.


(** X10. When one of the last two closes is missing, [delta] is [NaN]
    and [min(95, NaN)] makes the confidence 95. *)
Theorem confidence_of_missing_close (last_close prev_close : cell) :
  last_close = None \/ prev_close = None ->
  App.confidence (App.fsub last_close prev_close) = Some 95.
Proof.
  intros [-> | ->]; [|destruct last_close]; reflexivity.
Qed.

(** ** The page of a run *)

Lemma run_too_short (symbol : string) (fetched : DataFrame)
  (feed : list article) :
  symbol <> ""%string ->
  Frame.empty fetched = true \/ (Frame.len fetched < 2)%nat ->
  App.run symbol fetched feed
  = ({| heap := [fetched];
        ui := [StError "Invalid stock symbol or insufficient data"] |},
     inl StopException).
Proof.
  intros NE Short. unfold App.run, App.main_logic.
  destruct (String.eqb_spec symbol "") as [E|_]; [contradiction|].
  rewrite run_alloc. cbn [heap ui length app].
  unfold App.length_check. repeat step.
  replace (Frame.empty fetched || (Frame.len fetched <? 2)%nat) with true;
    [reflexivity|].
  symmetry. apply orb_true_iff.
  destruct Short as [E|L]; [left; exact E|right; apply Nat.ltb_lt, L].
Qed.

(** the page always starts with metrics, chart and table; a forecast and
    the news follow when the regression succeeds *)
Lemma run_page (symbol : string) (front : list Bar) (prev last : Bar)
  (feed : list article) :
  symbol <> ""%string ->
  let bars := front ++ [prev; last] in
  let r := App.run symbol (price_frame bars) feed in
  match predicted (map Some (map Close (drop 19 bars))) with
  | inl e => ui (fst r) = page_before_forecast bars prev last
             /\ snd r = inl e
  | inr p =>
      exists news,
        ui (fst r)
        = page_before_forecast bars prev last
          ++ [StSuccess (py_round p 2);
              StInfo (App.fmt 1 (App.confidence
                                   (Some (Close last - Close prev))))]
          ++ news
        /\ Forall (fun w => is_forecast w = false) news
        /\ snd r = inr tt
  end.
Proof.
  intros NE bars r.
  destruct (run_fetched symbol front prev last feed NE) as (work & _ & _ & R).
  cbv zeta in R. fold bars in R. unfold r. rewrite R.
  destruct (predicted (map Some (map Close (drop 19 bars)))) as [e|p].
  - split; reflexivity.
  - edestruct news_tab_run as (news & -> & F). cbn [fst snd ui].
    exists news. rewrite <- app_assoc. repeat split. exact F.
Qed.

Lemma page_has_no_forecast (bars : list Bar) (prev last : Bar) :
  Forall (fun w => is_forecast w = false) (page_before_forecast bars prev last).
Proof. unfold page_before_forecast. repeat constructor. Qed.

Lemma predicted_kept (bars : list Bar) :
  predicted (map Some (map Close (drop 19 bars)))
  = if Nat.leb 20 (length bars)
    then inr (forecast (map Close (drop 19 bars)))
    else inl (ValueError "Found array with 0 sample(s)").
Proof.
  destruct (Nat.leb_spec 20 (length bars)) as [L|L].
  - apply predicted_numbers. intros E. apply (f_equal length) in E.
    rewrite length_map, length_drop in E. simpl in E. lia.
  - rewrite drop_ge by lia. reflexivity.
Qed.


(** X11. On a fetched series a forecast is shown exactly when the series
    has at least 20 observations. *)
Theorem forecast_shown_from_20_rows (symbol : string) (bars : list Bar)
  (feed : list article) :
  symbol <> ""%string ->
  (exists p, StSuccess p ∈ ui (fst (App.run symbol (price_frame bars) feed)))
  <-> (20 <= length bars)%nat.
Proof.
  intros NE.
  destruct (Nat.lt_ge_cases (length bars) 2) as [Short|Long].
  - rewrite run_too_short;
      [| exact NE | right; rewrite len_price_frame; exact Short ].
    cbn [fst ui]. split; [|lia].
    intros [p P]. apply list_elem_of_singleton in P. discriminate.
  - destruct (two_last bars Long) as (front & prev & last & ->).
    pose proof (run_page symbol front prev last feed NE) as R.
    cbv zeta in R. rewrite predicted_kept in R.
    set (bars := front ++ [prev; last]) in *.
    destruct (Nat.leb_spec 20 (length bars)) as [L|L].
    + destruct R as (news & -> & _). split; [intros; exact L|].
      intros _. eexists. apply elem_of_app. right.
      apply list_elem_of_here.
    + destruct R as [-> _]. split; [|lia].
      intros [p P]. exfalso.
      pose proof (page_has_no_forecast bars prev last) as F.
      rewrite Forall_forall in F. specialize (F _ P). discriminate.
Qed.





Lemma tail_charted (bars : list Bar) :
  Frame.tail 25 (charted bars) = drop_rows (length bars - 25) (charted bars).
Proof.
  unfold Frame.tail.
  assert (Len : Frame.len (charted bars) = length bars)
    by apply len_price_frame.
  rewrite Len.
  assert (T : forall A (l : list A),
             length l = length bars ->
             Frame.take_rows (seq (length bars - 25)
                                  (25 `min` length bars)) l
             = drop (length bars - 25) l).
  { intros A l E. apply take_rows_seq. lia. }
  unfold Frame.select_rows, drop_rows. f_equal.
  - apply T. exact Len.
  - unfold charted, price_frame. cbn [columns app map fst snd].
    rewrite !T; try reflexivity; rewrite ?length_rolling_mean,
      ?length_ewm_mean, ?length_map; reflexivity.
Qed.

Lemma page_in_run (symbol : string) (front : list Bar) (prev last : Bar)
  (feed : list article) (w : widget) :
  symbol <> ""%string ->
  w ∈ page_before_forecast (front ++ [prev; last]) prev last ->
  w ∈ ui (fst (App.run symbol (price_frame (front ++ [prev; last])) feed)).
Proof.
  intros NE W.
  pose proof (run_page symbol front prev last feed NE) as R. cbv zeta in R.
  destruct (predicted _) as [e|p].
  - destruct R as [-> _]. exact W.
  - destruct R as (news & -> & _). apply elem_of_app. left. exact W.
Qed.

(** X16. The table offered for download is the one the chart tab has
    written to: all rows, with the [SMA_20] and [EMA_20] columns. *)
Theorem export_includes_chart_columns (symbol : string) (front : list Bar)
  (prev last : Bar) (feed : list article) :
  symbol <> ""%string ->
  let bars := front ++ [prev; last] in
  exists table,
    StDownloadButton table
      ∈ ui (fst (App.run symbol (price_frame bars) feed))
    /\ Frame.names table
       = ["Adj Close"; "Close"; "High"; "Low"; "Open"; "Volume";
          "SMA_20"; "EMA_20"]%string
    /\ index table = map Date bars
    /\ Frame.getitem "Close" table = inr (map Some (map Close bars))
    /\ Frame.getitem "SMA_20" table
       = inr (Frame.rolling_mean 20 (map Some (map Close bars))).
Proof.
  intros NE bars. exists (charted bars). split.
  - apply page_in_run; [exact NE|]. unfold page_before_forecast.
    do 7 apply list_elem_of_further. apply list_elem_of_here.
  - repeat split.
Qed.

(** X17. The table view shows the last 25 rows of that table, all of
    them when there are fewer. *)
Theorem table_view_shows_last_25 (symbol : string) (front : list Bar)
  (prev last : Bar) (feed : list article) :
  symbol <> ""%string ->
  let bars := front ++ [prev; last] in
  exists shown,
    StDataframe shown ∈ ui (fst (App.run symbol (price_frame bars) feed))
    /\ index shown = map Date (drop (length bars - 25) bars)
    /\ Frame.getitem "Close" shown
       = inr (map Some (map Close (drop (length bars - 25) bars)))
    /\ Frame.len shown = Nat.min 25 (length bars).
Proof.
  intros NE bars. exists (Frame.tail 25 (charted bars)). split.
  - apply page_in_run; [exact NE|]. unfold page_before_forecast.
    do 6 apply list_elem_of_further. apply list_elem_of_here.
  - rewrite tail_charted. repeat split.
    + unfold drop_rows, charted, price_frame; cbn [index].
      symmetry. apply (fmap_drop Date).
    + apply getitem_eval. unfold drop_rows, charted, price_frame.
      cbn [columns app map fst snd Frame.lookup_col].
      change (String.eqb "Adj Close" "Close") with false.
      change (String.eqb "Close" "Close") with true. cbv iota.
      change (map ?f ?l) with (f <$> l). rewrite !fmap_drop. reflexivity.
    + unfold Frame.len, drop_rows, charted, price_frame; cbn [index].
      rewrite length_drop, length_map. lia.
Qed.

(** X18. The chart has the three lines Close, SMA 20 and EMA 20, each
    over all dates and with one value per date. *)
Theorem chart_lines_cover_all_dates (symbol : string) (front : list Bar)
  (prev last : Bar) (feed : list article) :
  symbol <> ""%string ->
  let bars := front ++ [prev; last] in
  exists traces,
    StPlotlyChart traces ∈ ui (fst (App.run symbol (price_frame bars) feed))
    /\ map (fun t => fst (fst t)) traces
       = ["Close"; "SMA 20"; "EMA 20"]%string
    /\ Forall (fun t => snd (fst t) = map Date bars
                        /\ length (snd t) = length bars) traces.
Proof.
  intros NE bars. eexists. split.
  - apply page_in_run; [exact NE|]. unfold page_before_forecast.
    do 5 apply list_elem_of_further. apply list_elem_of_here.
  - split; [reflexivity|].
    repeat constructor; cbn [snd];
      rewrite ?length_rolling_mean, ?length_ewm_mean, ?length_map;
      reflexivity.
Qed.

(** ** The metrics on any table *)



Lemma lookup_col_In name cols v :
  Frame.lookup_col name cols = Some v -> In (name, v) cols.
Proof.
  induction cols as [|[k old] rest IH]; simpl; [discriminate|].
  destruct (String.eqb_spec k name) as [->|K]; intros E.
  - injection E as ->. left. reflexivity.
  - right. apply IH, E.
Qed.


Lemma run_passes_check (symbol : string) (df : DataFrame)
  (feed : list article) :
  symbol <> ""%string ->
  Frame.empty df = false ->
  (2 <= Frame.len df)%nat ->
  App.run symbol df feed
  = bind (App.metrics 0)
      (fun delta =>
         bind (App.chart_tab 0)
           (fun _ => bind (App.data_tab 0)
              (fun _ => bind (App.prediction_tab 0 delta)
                 (fun _ => App.news_tab feed))))
      {| heap := [df]; ui := [] |}.
Proof.
  intros NE E L. unfold App.run, App.main_logic.
  destruct (String.eqb_spec symbol "") as [Z|_]; [contradiction|].
  rewrite run_alloc. cbn [heap ui length app].
  unfold App.length_check. repeat step. rewrite E.
  replace (Frame.len df <? 2)%nat with false
    by (symmetry; apply Nat.ltb_ge; exact L).
  cbn [orb]. repeat step. reflexivity.
Qed.



(** ** The chart tab on any table *)

Lemma length_ewm_scan (alpha : Q) (st : Frame.ewm_state) (s : list cell) :
  length (Frame.ewm_scan alpha st s) = length s.
Proof.
  revert st. induction s as [|c s IH]; intros st; simpl; [|rewrite IH];
    reflexivity.
Qed.

Lemma length_ewm_mean_any (span : Q) (s : list cell) :
  length (Frame.ewm_mean span s) = length s.
Proof. destruct s; simpl; [|rewrite length_ewm_scan]; reflexivity. Qed.

Lemma assign_col_same name v cols :
  Frame.lookup_col name cols = Some v -> Frame.assign_col name v cols = cols.
Proof.
  induction cols as [|[k old] rest IH]; simpl; [discriminate|].
  destruct (String.eqb_spec k name) as [->|K]; intros E.
  - injection E as ->. reflexivity.
  - rewrite IH by exact E. reflexivity.
Qed.

(** the table the chart tab makes of [df] *)
Lemma chart_tab_run (s : state) (data : ref) (df : DataFrame)
  (close : list cell) :
  heap s !! data = Some df ->
  has_column df "Close" close ->
  let sma := Frame.rolling_mean 20 close in
  let ema := Frame.ewm_mean 20 close in
  let df' := {| index_name := index_name df;
                index := index df;
                columns := Frame.assign_col "EMA_20" ema
                             (Frame.assign_col "SMA_20" sma (columns df)) |} in
  App.chart_tab data s
  = ({| heap := <[data := df']> (heap s);
        ui := ui s ++ [StPlotlyChart [("Close"%string, index df, close);
                                      ("SMA 20"%string, index df, sma);
                                      ("EMA 20"%string, index df, ema)]] |},
     inr tt).
Proof.
  intros H [G L] sma ema df'.
  assert (B : forall m : M unit, m s = bind m ret s).
  { intros m. unfold bind. destruct (m s) as [s' [e|[]]]; reflexivity. }
  rewrite B. unfold App.chart_tab.
  assert (In_range : (data < length (heap s))%nat)
    by (eapply lookup_lt_Some, H).
  repeat step. erewrite run_getitem by exact H. rewrite G.
  repeat step. erewrite run_setitem;
    [| exact H | rewrite length_rolling_mean; exact L ].
  set (df1 := {| index_name := index_name df |}).
  assert (H1 : heap {| heap := <[data := df1]> (heap s); ui := ui s |}
               !! data = Some df1)
    by (apply list_lookup_insert_eq, In_range).
  assert (G1 : Frame.getitem "Close" df1 = inr close).
  { unfold Frame.getitem in *. unfold df1; cbn [columns].
    rewrite lookup_assign_col_ne by discriminate. exact G. }
  repeat step. erewrite run_getitem by exact H1. rewrite G1.
  repeat step. erewrite run_setitem;
    [| exact H1 | rewrite length_ewm_mean_any; exact L ].
  cbn [heap ui]. rewrite list_insert_insert_eq.
  unfold df1; cbn [index_name index columns]. fold sma ema df'.
  assert (H2 : heap {| heap := <[data := df']> (heap s); ui := ui s |}
               !! data = Some df')
    by (apply list_lookup_insert_eq, In_range).
  repeat step. erewrite run_deref by exact H2.
  repeat step. erewrite run_getitem by exact H2.
  replace (Frame.getitem "Close" df') with (inr (A := exn) close).
  2:{ unfold Frame.getitem in *. unfold df'; cbn [columns].
      rewrite !lookup_assign_col_ne by discriminate. symmetry. exact G. }
  repeat step. erewrite run_getitem by exact H2.
  replace (Frame.getitem "SMA_20" df') with (inr (A := exn) sma).
  2:{ unfold Frame.getitem. unfold df'; cbn [columns].
      rewrite lookup_assign_col_ne by discriminate.
      rewrite lookup_assign_col_eq. reflexivity. }
  repeat step. erewrite run_getitem by exact H2.
  replace (Frame.getitem "EMA_20" df') with (inr (A := exn) ema).
  2:{ unfold Frame.getitem. unfold df'; cbn [columns].
      rewrite lookup_assign_col_eq. reflexivity. }
  repeat step. reflexivity.
Qed.

(** X21. The chart tab writes [SMA_20] and [EMA_20] into the caller's
    table in place and changes neither its index nor any other column. *)
Theorem chart_tab_keeps_prices (s : state) (data : ref) (df : DataFrame)
  (close : list cell) :
  heap s !! data = Some df ->
  has_column df "Close" close ->
  exists charted_df,
    heap (fst (App.chart_tab data s)) = <[data := charted_df]> (heap s)
    /\ snd (App.chart_tab data s) = inr tt
    /\ index charted_df = index df
    /\ Frame.getitem "SMA_20" charted_df
       = inr (Frame.rolling_mean 20 close)
    /\ Frame.getitem "EMA_20" charted_df = inr (Frame.ewm_mean 20 close)
    /\ forall name,
         name <> "SMA_20"%string -> name <> "EMA_20"%string ->
         Frame.getitem name charted_df = Frame.getitem name df.
Proof.
  intros H C. rewrite (chart_tab_run s data df close H C). cbv zeta.
  eexists. split; [reflexivity|]. split; [reflexivity|].
  split; [reflexivity|]. unfold Frame.getitem; cbn [columns]. repeat split.
  - rewrite lookup_assign_col_ne by discriminate.
    rewrite lookup_assign_col_eq. reflexivity.
  - rewrite lookup_assign_col_eq. reflexivity.
  - intros name N1 N2.
    rewrite !lookup_assign_col_ne by congruence. reflexivity.
Qed.

(** X22. Running the chart tab a second time leaves the store as the
    first run left it: the two columns are replaced by the same values. *)
Theorem chart_tab_twice (s : state) (data : ref) (df : DataFrame)
  (close : list cell) :
  heap s !! data = Some df ->
  has_column df "Close" close ->
  heap (fst (App.chart_tab data (fst (App.chart_tab data s))))
  = heap (fst (App.chart_tab data s)).
Proof.
  intros H C. rewrite (chart_tab_run s data df close H C). cbv zeta.
  cbn [fst].
  set (df' := {| index_name := index_name df |}).
  assert (In_range : (data < length (heap s))%nat)
    by (eapply lookup_lt_Some, H).
  assert (C' : has_column df' "Close" close).
  { destruct C as [G L]. split; [|exact L].
    unfold Frame.getitem in *. unfold df'; cbn [columns].
    rewrite !lookup_assign_col_ne by discriminate. exact G. }
  rewrite (chart_tab_run {| heap := <[data := df']> (heap s); ui := _ |}
             data df' close
             (list_lookup_insert_eq _ _ _ In_range) C').
  cbv zeta. cbn [fst heap]. rewrite list_insert_insert_eq. f_equal.
  unfold df'; cbn [index_name index columns]. f_equal.
  rewrite (assign_col_same "SMA_20").
  - apply assign_col_same, lookup_assign_col_eq.
  - rewrite lookup_assign_col_ne by discriminate.
    apply lookup_assign_col_eq.
Qed.

(** ** What every run keeps *)

Section Keeps.

Variable I : state -> Prop.
Hypothesis page_free : forall h u u',
  I {| heap := h; ui := u |} -> I {| heap := h; ui := u' |}.
Hypothesis grows : forall h u df,
  I {| heap := h; ui := u |} -> I {| heap := h ++ [df]; ui := u |}.

Lemma keeps_bind {A B} (m : M A) (k : A -> M B) :
  keeps I m -> (forall a, keeps I (k a)) -> keeps I (bind m k).
Proof.
  intros Km Kk s Is. unfold bind. specialize (Km s Is).
  destruct (m s) as [s' [e|a]]; cbn [fst] in *; [exact Km|].
  apply Kk, Km.
Qed.

Lemma keeps_ret {A} (a : A) : keeps I (ret a).
Proof. intros s Is. exact Is. Qed.

Lemma keeps_raise {A} (e : exn) : keeps I (raise (A := A) e).
Proof. intros s Is. exact Is. Qed.

Lemma keeps_lift {A} (r : result A) : keeps I (lift r).
Proof. destruct r; [apply keeps_raise|apply keeps_ret]. Qed.

Lemma keeps_emit (w : widget) : keeps I (emit w).
Proof. intros [h u] Is. cbn. eapply page_free, Is. Qed.

Lemma keeps_alloc (df : DataFrame) : keeps I (alloc df).
Proof. intros [h u] Is. cbn. apply grows, Is. Qed.

Lemma keeps_deref (r : ref) : keeps I (deref r).
Proof. intros s Is. unfold deref. destruct (heap s !! r); exact Is. Qed.

Lemma keeps_getitem (r : ref) (name : string) : keeps I (getitem_ r name).
Proof.
  unfold getitem_. apply keeps_bind; [apply keeps_deref|].
  intros df. apply keeps_lift.
Qed.

Lemma keeps_predict (r : ref) : keeps I (predict_stock_price r).
Proof.
  intros [h u] Is. destruct (h !! r) as [df|] eqn:H.
  - rewrite (predict_stock_price_closed {| heap := h; ui := u |} r df H).
    destruct (Frame.reset_index df); cbn [fst heap ui]; [exact Is|].
    apply grows, Is.
  - rewrite (predict_stock_price_unbound {| heap := h; ui := u |} r H).
    exact Is.
Qed.

Lemma keeps_show_news (news : list article) : keeps I (App.show_news news).
Proof.
  induction news as [|a news IH]; cbn [App.show_news]; [apply keeps_ret|].
  apply keeps_bind; [apply keeps_emit|]. intros _.
  apply keeps_bind; [apply keeps_emit|]. intros _. exact IH.
Qed.

Lemma keeps_news_tab (feed : list article) : keeps I (App.news_tab feed).
Proof.
  unfold App.news_tab. destruct (take 5 feed);
    [apply keeps_emit|apply keeps_show_news].
Qed.

End Keeps.

Lemma table_kept_page_free (fetched : DataFrame) h u u' :
  table_kept fetched {| heap := h; ui := u |} ->
  table_kept fetched {| heap := h; ui := u' |}.
Proof. intros T. exact T. Qed.

Lemma table_kept_grows (fetched : DataFrame) h u df :
  table_kept fetched {| heap := h; ui := u |} ->
  table_kept fetched {| heap := h ++ [df]; ui := u |}.
Proof.
  intros (data & H & T). exists data. split; [|exact T].
  cbn [heap] in *. apply lookup_app_l_Some, H.
Qed.

Lemma keeps_chart_column (fetched : DataFrame) (name : string)
  (v : list cell) :
  name = "SMA_20"%string \/ name = "EMA_20"%string ->
  keeps (table_kept fetched) (setitem_ 0 name v).
Proof.
  intros N s (data & H & Ix & In & Cols).
  unfold setitem_, bind, deref. rewrite H. unfold Frame.setitem.
  destruct (length v =? Frame.len data)%nat; cbn [lift ret raise fst];
    [|exists data; auto].
  unfold update. cbn [fst heap].
  eexists. split.
  - apply list_lookup_insert_eq. eapply lookup_lt_Some, H.
  - cbn [index index_name]. repeat split; [exact Ix|exact In|].
    intros name' N1 N2. rewrite <- (Cols name' N1 N2).
    unfold Frame.getitem; cbn [columns].
    rewrite lookup_assign_col_ne; [reflexivity|].
    destruct N; congruence.
Qed.

Lemma keeps_after_check (fetched : DataFrame) (feed : list article) :
  keeps (table_kept fetched)
    (bind (App.metrics 0)
       (fun delta =>
          bind (App.chart_tab 0)
            (fun _ => bind (App.data_tab 0)
               (fun _ => bind (App.prediction_tab 0 delta)
                  (fun _ => App.news_tab feed))))).
Proof.
  pose proof (table_kept_page_free fetched) as PF.
  pose proof (table_kept_grows fetched) as G.
  unfold App.metrics, App.chart_tab, App.data_tab, App.prediction_tab,
    dropna_.
  repeat first
    [ apply keeps_chart_column; auto
    | apply keeps_ret | apply keeps_lift
    | apply keeps_emit; assumption | apply keeps_alloc; assumption
    | apply keeps_deref | apply keeps_getitem
    | apply keeps_predict; assumption
    | apply keeps_news_tab; assumption
    | apply keeps_bind; [|intros ?] ].
Qed.

(** X23. Whatever table is fetched and however the run ends, the table
    behind [data] keeps its index and every fetched column, apart from
    columns named [SMA_20] or [EMA_20]. *)
Theorem run_keeps_fetched_table (symbol : string) (fetched : DataFrame)
  (feed : list article) :
  symbol <> ""%string ->
  exists data,
    heap (fst (App.run symbol fetched feed)) !! 0%nat = Some data
    /\ index data = index fetched
    /\ forall name,
         name <> "SMA_20"%string -> name <> "EMA_20"%string ->
         Frame.getitem name data = Frame.getitem name fetched.
Proof.
  intros NE.
  assert (T : table_kept fetched (fst (App.run symbol fetched feed))).
  { destruct (Frame.empty fetched) eqn:E.
    { rewrite run_too_short by auto. exists fetched. auto. }
    destruct (Nat.lt_ge_cases (Frame.len fetched) 2) as [L|L].
    { rewrite run_too_short by auto. exists fetched. auto. }
    rewrite run_passes_check by assumption.
    apply keeps_after_check. exists fetched. auto. }
  destruct T as (data & H & Ix & _ & Cols). exists data. auto.
Qed.

(** ** What ends a run, and what it shows *)

Section Behaves.

Variable P : widget -> Prop.

Lemma behaves_bind {A B} (m : M A) (k : A -> M B) :
  behaves P m -> (forall a, behaves P (k a)) -> behaves P (bind m k).
Proof.
  intros Bm Bk s. unfold bind. destruct (Bm s) as [(ws & U & F) R].
  destruct (m s) as [s' [e|a]]; cbn [fst snd] in *.
  - split; [exists ws; auto|]. intros Z. apply R. congruence.
  - destruct (Bk a s') as [(ws' & U' & F') R'].
    split; [|exact R'].
    exists (ws ++ ws'). rewrite U', U, app_assoc. split; [reflexivity|].
    apply Forall_app. auto.
Qed.

Lemma behaves_silent {A} (m : M A) :
  (forall s, ui (fst (m s)) = ui s) ->
  (forall s, snd (m s) <> inl StopException) ->
  behaves P m.
Proof.
  intros U R s. split; [|apply R].
  exists []. rewrite U, app_nil_r. split; [reflexivity|constructor].
Qed.

Lemma behaves_ret {A} (a : A) : behaves P (ret a).
Proof. apply behaves_silent; intros; [reflexivity|discriminate]. Qed.

Lemma behaves_lift {A} (r : result A) :
  r <> inl StopException -> behaves P (lift r).
Proof.
  intros N. apply behaves_silent; intros s; destruct r; try reflexivity;
    cbn; congruence.
Qed.

Lemma behaves_emit (w : widget) : P w -> behaves P (emit w).
Proof.
  intros Pw s. split; [|discriminate].
  exists [w]. split; [reflexivity|]. constructor; [exact Pw|constructor].
Qed.

Lemma behaves_alloc (df : DataFrame) : behaves P (alloc df).
Proof. apply behaves_silent; intros; [reflexivity|discriminate]. Qed.

Lemma behaves_update (r : ref) (df : DataFrame) : behaves P (update r df).
Proof. apply behaves_silent; intros; [reflexivity|discriminate]. Qed.

Lemma behaves_deref (r : ref) : behaves P (deref r).
Proof.
  apply behaves_silent; intros s; unfold deref;
    destruct (heap s !! r); cbn; congruence.
Qed.

Lemma behaves_getitem (r : ref) (name : string) : behaves P (getitem_ r name).
Proof.
  unfold getitem_. apply behaves_bind; [apply behaves_deref|].
  intros df. apply behaves_lift. unfold Frame.getitem.
  destruct (Frame.lookup_col name (columns df)); discriminate.
Qed.

Lemma behaves_setitem (r : ref) (name : string) (v : list cell) :
  behaves P (setitem_ r name v).
Proof.
  unfold setitem_. apply behaves_bind; [apply behaves_deref|].
  intros df. apply behaves_bind; [|intros; apply behaves_update].
  apply behaves_lift. unfold Frame.setitem.
  destruct (length v =? Frame.len df)%nat; discriminate.
Qed.

Lemma behaves_iloc (k : nat) (s : list cell) :
  behaves P (lift (Frame.iloc_neg k s)).
Proof.
  apply behaves_lift. unfold Frame.iloc_neg.
  destruct (k <=? length s)%nat; [|discriminate].
  destruct (s !! (length s - k)%nat); discriminate.
Qed.

Lemma behaves_int (c : cell) : behaves P (lift (App.int c)).
Proof. apply behaves_lift. destruct c; discriminate. Qed.

Lemma fit_no_stop (X y : list cell) :
  LinearRegression.fit X y <> inl StopException.
Proof.
  unfold LinearRegression.fit.
  destruct (Frame.to_numeric X) as [[|x xs]|]; try discriminate.
  destruct (Frame.to_numeric y) as [ys|]; try discriminate.
  destruct (Nat.eqb _ _); discriminate.
Qed.

Lemma regress_no_stop (work : DataFrame) : regress work <> inl StopException.
Proof.
  unfold regress, Frame.getitem.
  destruct (Frame.lookup_col "Days" (columns work)); [|discriminate].
  destruct (Frame.lookup_col "Close" (columns work)); [|discriminate].
  pose proof (fit_no_stop l l0) as F.
  destruct (LinearRegression.fit l l0); [|discriminate].
  intros Z. apply F. congruence.
Qed.

Lemma behaves_predict (r : ref) : behaves P (predict_stock_price r).
Proof.
  apply behaves_silent; intros s; destruct (heap s !! r) as [df|] eqn:H;
    rewrite ?(predict_stock_price_closed _ _ _ H),
            ?(predict_stock_price_unbound _ _ H);
    try reflexivity; try discriminate.
  - destruct (Frame.reset_index df); reflexivity.
  - unfold Frame.reset_index.
    destruct (bool_decide _); cbn [snd]; [discriminate|].
    apply regress_no_stop.
Qed.

Hypothesis news_ok : forall t p l, P (StMarkdown t p l).
Hypothesis rule_ok : P StRule.
Hypothesis warning_ok : forall msg, P (StWarning msg).

Lemma behaves_show_news (news : list article) : behaves P (App.show_news news).
Proof.
  induction news as [|a news IH]; cbn [App.show_news]; [apply behaves_ret|].
  apply behaves_bind; [apply behaves_emit, news_ok|]. intros _.
  apply behaves_bind; [apply behaves_emit, rule_ok|]. intros _. exact IH.
Qed.

Lemma behaves_news_tab (feed : list article) : behaves P (App.news_tab feed).
Proof.
  unfold App.news_tab. destruct (take 5 feed);
    [apply behaves_emit, warning_ok|apply behaves_show_news].
Qed.

End Behaves.

Lemma no_error_after_check (feed : list article) :
  behaves (fun w => is_error w = false)
    (bind (App.metrics 0)
       (fun delta =>
          bind (App.chart_tab 0)
            (fun _ => bind (App.data_tab 0)
               (fun _ => bind (App.prediction_tab 0 delta)
                  (fun _ => App.news_tab feed))))).
Proof.
  unfold App.metrics, App.chart_tab, App.data_tab, App.prediction_tab,
    dropna_.
  repeat first
    [ apply behaves_ret | apply behaves_iloc | apply behaves_int
    | apply behaves_emit; reflexivity | apply behaves_alloc
    | apply behaves_deref | apply behaves_getitem | apply behaves_setitem
    | apply behaves_predict
    | apply behaves_news_tab; intros; reflexivity
    | apply behaves_bind; [|intros ?] ].
Qed.

(** X24. A run ends with [st.stop()], and shows the error message,
    exactly when the symbol is not empty and the table is empty or has
    fewer than two rows. *)
Theorem stop_only_on_short_data (symbol : string) (fetched : DataFrame)
  (feed : list article) :
  let r := App.run symbol fetched feed in
  let short := symbol <> ""%string
               /\ (Frame.empty fetched = true
                   \/ (Frame.len fetched < 2)%nat) in
  (snd r = inl StopException <-> short)
  /\ ((exists msg, StError msg ∈ ui (fst r)) <-> short).
Proof.
  intros r short. unfold r, short.
  destruct (String.eqb_spec symbol "") as [->|NE].
  { cbn. split; split; try (intros [N _]; congruence); try discriminate.
    intros [msg M]. inversion M. }
  destruct (Frame.empty fetched) eqn:E.
  { rewrite run_too_short by auto. cbn [fst snd ui].
    split; split; auto. intros _. eexists. apply list_elem_of_here. }
  destruct (Nat.lt_ge_cases (Frame.len fetched) 2) as [L|L].
  { rewrite run_too_short by auto. cbn [fst snd ui].
    split; split; auto. intros _. eexists. apply list_elem_of_here. }
  rewrite run_passes_check by assumption.
  destruct (no_error_after_check feed {| heap := [fetched]; ui := [] |})
    as [(ws & U & F) R].
  split; split.
  - intros S. contradiction.
  - intros [_ [Z|Z]]; [discriminate|lia].
  - intros [msg M]. rewrite U in M. cbn [ui app] in M.
    rewrite Forall_forall in F. specialize (F _ M). discriminate.
  - intros [_ [Z|Z]]; [discriminate|lia].
Qed.

(** X25. The news tab never raises and leaves the store alone; it shows
    the warning for an empty feed, and otherwise a text and a rule for each
    of the first five articles, with the defaults for missing fields. *)
Theorem news_tab_shows_at_most_five (feed : list article) (s : state) :
  App.news_tab feed s
  = ({| heap := heap s;
        ui := ui s ++ match feed with
                      | [] => [StWarning "No recent news available."]
                      | _ :: _ => concat (map article_widgets (take 5 feed))
                      end |},
     inr tt).
Proof.
  assert (Show : forall news t,
             App.show_news news t
             = ({| heap := heap t;
                   ui := ui t ++ concat (map article_widgets news) |},
                inr tt)).
  { induction news as [|a news IH]; intros t.
    - cbn. rewrite app_nil_r. destruct t; reflexivity.
    - cbn [App.show_news]. repeat step. rewrite IH. cbn [heap ui map concat].
      rewrite <- !app_assoc. reflexivity. }
  unfold App.news_tab. destruct feed as [|a feed]; [reflexivity|].
  cbn [take]. apply Show.
Qed.

(** ** The moving averages stay within the closes *)

Lemma Qsum_bounds (lo hi : Q) (l : list Q) :
  Forall (fun c => lo <= c <= hi) l ->
  inject_Z (Z.of_nat (length l)) * lo <= Qsum l
  /\ Qsum l <= inject_Z (Z.of_nat (length l)) * hi.
Proof.
  induction 1 as [|c l [Lo Hi] _ [IHlo IHhi]].
  - change (inject_Z (Z.of_nat (length (@nil Q)))) with 0.
    change (Qsum []) with 0. split; lra.
  - cbn [length]. rewrite inject_S. change (Qsum (c :: l)) with (c + Qsum l).
    split; lra.
Qed.

Lemma mean_bounds (lo hi : Q) (l : list Q) :
  l <> [] -> Forall (fun c => lo <= c <= hi) l -> lo <= mean l <= hi.
Proof.
  intros NE F. destruct (Qsum_bounds lo hi l F) as [Lo Hi].
  unfold mean. set (N := inject_Z (Z.of_nat (length l))) in *.
  assert (Pos : 0 < N).
  { unfold N. destruct l; [congruence|]. unfold Qlt. cbn. lia. }
  split.
  - apply Qle_shift_div_l; [exact Pos|]. lra.
  - apply Qle_shift_div_r; [exact Pos|]. lra.
Qed.

(** X26. Every value of [SMA_20] and of [EMA_20] lies between the
    smallest and the largest close. *)
Theorem moving_averages_within_range (bars : list Bar) (lo hi : Q)
  (i : nat) (v : Q) :
  Forall (fun b => lo <= Close b <= hi) bars ->
  (exists sma, Frame.getitem "SMA_20" (charted bars) = inr sma
               /\ sma !! i = Some (Some v))
  \/ (exists ema, Frame.getitem "EMA_20" (charted bars) = inr ema
                  /\ ema !! i = Some (Some v)) ->
  lo <= v <= hi.
Proof.
  intros F.
  assert (Fc : Forall (fun c => lo <= c <= hi) (map Close bars)).
  { apply List.Forall_map. exact F. }
  intros [(sma & G & V)|(ema & G & V)].
  - assert (E : sma = Frame.rolling_mean 20 (map Some (map Close bars))).
    { unfold Frame.getitem in G. cbn in G. congruence. }
    subst sma.
    assert (L : (i < length (map Close bars))%nat).
    { apply lookup_lt_Some in V. rewrite length_rolling_mean, length_map in V.
      exact V. }
    rewrite rolling_mean_lookup in V by exact L.
    destruct (Nat.leb_spec 19 i) as [I|I]; [|discriminate].
    injection V as <-. apply mean_bounds.
    + intros Hz. apply (f_equal length) in Hz.
      rewrite length_take, length_drop in Hz. cbn [length] in Hz. lia.
    + apply Forall_take, Forall_drop. exact Fc.
  - destruct (ewm_mean_numbers 20 (map Close bars)) as (es & E & Le & E0 & Es).
    assert (Eq : ema = map Some es).
    { unfold Frame.getitem in G. cbn in G. congruence. }
    subst ema. change (map Some es) with (Some <$> es) in V.
    rewrite list_lookup_fmap in V.
    destruct (es !! i) as [e|] eqn:He; [|discriminate].
    injection V as ->.
    assert (A : Frame.ewm_alpha 20 == 2 # 21) by reflexivity.
    rewrite Forall_forall in Fc.
    revert v He. induction i as [|i IH]; intros v He.
    + rewrite E0 in He. apply Fc. eapply list_elem_of_lookup_2, He.
    + destruct (lookup_lt_is_Some_2 (map Close bars) (S i)) as [c C].
      { rewrite <- Le. eapply lookup_lt_Some, He. }
      destruct (Es i c C) as (prev & w & P & W & R).
      rewrite He in W. injection W as <-.
      specialize (IH prev P).
      assert (Cb : lo <= c <= hi)
        by (apply Fc; eapply list_elem_of_lookup_2, C).
      rewrite A in R. lra.
Qed.

(** ** The data loader *)

Lemma lookup_col_combine (names : list string) (data : list (list cell))
  (i : nat) (name : string) (col : list cell) :
  NoDup names ->
  names !! i = Some name ->
  data !! i = Some col ->
  Frame.lookup_col name (combine names data) = Some col.
Proof.
  revert data i. induction names as [|k names IH]; intros data i ND N D;
    [destruct i; discriminate|].
  destruct data as [|c data]; [destruct i; discriminate|].
  apply NoDup_cons in ND as [Fresh ND]. cbn [combine Frame.lookup_col].
  destruct i as [|i].
  - injection N as ->. injection D as ->. rewrite String.eqb_refl.
    reflexivity.
  - cbn in N, D. destruct (String.eqb_spec k name) as [->|_].
    + exfalso. apply Fresh. eapply list_elem_of_lookup_2, N.
    + eapply IH; eassumption.
Qed.

Lemma names_combine {A} (names : list string) (data : list A) :
  length names = length data -> map fst (combine names data) = names.
Proof.
  revert data. induction names as [|k names IH]; intros [|c data] L;
    try discriminate; [reflexivity|].
  cbn. f_equal. apply IH. injection L as L. exact L.
Qed.

(** X27. For a single-ticker download with a two-level header,
    [load_data] returns a table whose columns are named by the first
    level and hold the same data, under the same index. *)
Theorem load_data_flattens_header (download : downloaded)
  (keys : list (string * string)) (i : nat) (field ticker : string)
  (col : list cell) :
  dl_header download = MultiIndex keys ->
  length keys = length (dl_data download) ->
  NoDup (map fst keys) ->
  keys !! i = Some (field, ticker) ->
  dl_data download !! i = Some col ->
  Frame.getitem field (load_data download) = inr col
  /\ index (load_data download) = dl_index download
  /\ Frame.names (load_data download) = map fst keys.
Proof.
  intros H Len ND K D. unfold load_data. rewrite H. repeat split.
  - apply getitem_eval. cbn [columns]. unfold get_level_values_0.
    eapply lookup_col_combine; [exact ND| |exact D].
    change (map fst keys) with (fst <$> keys).
    rewrite list_lookup_fmap, K. reflexivity.
  - unfold Frame.names, get_level_values_0; cbn [columns].
    apply names_combine. rewrite length_map. exact Len.
Qed.

(** ** The forecast never sees a missing value *)

Lemma lookup_col_select (name : string) (rows : list nat)
  (cols : list (string * list cell)) :
  Frame.lookup_col name
    (map (fun c => (fst c, Frame.take_rows rows (snd c))) cols)
  = option_map (Frame.take_rows rows) (Frame.lookup_col name cols).
Proof.
  induction cols as [|[k v] cols IH]; [reflexivity|].
  cbn [map Frame.lookup_col fst snd].
  destruct (String.eqb k name); [reflexivity|exact IH].
Qed.

Lemma complete_row_column (df : DataFrame) (i : nat) (name : string)
  (col : list cell) :
  Frame.complete_row df i = true ->
  In (name, col) (columns df) ->
  exists q, col !! i = Some (Some q).
Proof.
  unfold Frame.complete_row. rewrite forallb_forall. intros C I.
  specialize (C _ I). cbn [snd] in C.
  destruct (col !! i) as [[q|]|]; try discriminate. eauto.
Qed.

Lemma dropna_column_complete (df : DataFrame) (name : string)
  (col : list cell) :
  Frame.getitem name (Frame.dropna df) = inr col ->
  Forall (fun c => is_Some c) col.
Proof.
  unfold Frame.getitem, Frame.dropna, Frame.select_rows; cbn [columns].
  rewrite lookup_col_select.
  destruct (Frame.lookup_col name (columns df)) as [c|] eqn:L;
    [|discriminate].
  cbn [option_map]. intros E. injection E as <-.
  apply lookup_col_In in L.
  unfold Frame.take_rows.
  assert (K : Forall (fun i => Frame.complete_row df i = true)
                (List.filter (Frame.complete_row df)
                   (seq 0 (Frame.len df)))).
  { apply List.Forall_forall. intros i I. apply List.filter_In in I.
    apply I. }
  induction K as [|i rows Ci _ IH]; [constructor|].
  destruct (complete_row_column df i name c Ci L) as [q Hq].
  cbn [omap list_omap].
  match goal with
  | |- context [match ?x with _ => _ end] =>
      assert (Hx : x = Some (Some q)) by exact Hq; rewrite Hx
  end.
  constructor; [eauto|exact IH].
Qed.

(** X28. Since the prediction tab passes [data.dropna()], the regression
    is never given a missing value, whatever the table holds. *)
Theorem prediction_tab_never_fits_nan (s : state) (data : ref)
  (df : DataFrame) (delta : cell) :
  heap s !! data = Some df ->
  snd (App.prediction_tab data delta s)
    <> inl (ValueError "Input y contains NaN")
  /\ snd (App.prediction_tab data delta s)
     <> inl (ValueError "Input X contains NaN").
Proof.
  intros H. unfold App.prediction_tab, dropna_.
  repeat step. erewrite run_deref by exact H. rewrite run_alloc.
  set (s1 := {| heap := heap s ++ [Frame.dropna df]; ui := ui s |}).
  assert (H1 : heap s1 !! length (heap s) = Some (Frame.dropna df))
    by (apply list_lookup_middle; reflexivity).
  pose proof (predict_stock_price_closed s1 _ _ H1) as P.
  destruct (Frame.reset_index (Frame.dropna df)) as [e|df1] eqn:R.
  { rewrite (run_call _ _ _ _ _ P). cbn [snd].
    unfold Frame.reset_index in R.
    destruct (bool_decide _); [|discriminate]. injection R as <-.
    split; discriminate. }
  rewrite (run_call _ _ _ _ _ P).
  assert (Safe : regress (with_days df1)
                   <> inl (ValueError "Input y contains NaN")
                 /\ regress (with_days df1)
                    <> inl (ValueError "Input X contains NaN")).
  { unfold regress.
    assert (D : Frame.getitem "Days" (with_days df1)
                = inr (map Some (arange (Frame.len df1)))).
    { unfold Frame.getitem, with_days; cbn [columns].
      rewrite lookup_assign_col_eq. reflexivity. }
    rewrite D.
    destruct (Frame.getitem "Close" (with_days df1)) as [e|y] eqn:C.
    { unfold Frame.getitem in C.
      destruct (Frame.lookup_col _ _); [discriminate|].
      injection C as <-. split; discriminate. }
    assert (Y : Forall (fun c => is_Some c) y).
    { unfold Frame.reset_index in R.
      destruct (bool_decide _); [discriminate|]. injection R as <-.
      unfold Frame.getitem, with_days in C; cbn [columns] in C.
      rewrite lookup_assign_col_ne in C by discriminate.
      cbn [Frame.lookup_col] in C.
      destruct (String.eqb _ "Close").
      - injection C as <-. apply List.Forall_map.
        apply List.Forall_forall. intros; eauto.
      - apply (dropna_column_complete df "Close"). exact C. }
    unfold LinearRegression.fit. rewrite to_numeric_some.
    destruct (arange (Frame.len df1)); [split; discriminate|].
    destruct (Frame.to_numeric y) as [ys|] eqn:N.
    - destruct (Nat.eqb _ _); split; discriminate.
    - exfalso. unfold Frame.to_numeric in N.
      assert (S : is_Some (mapM id y)) by (apply mapM_is_Some_2; exact Y).
      rewrite N in S. destruct S; discriminate. }
  destruct (regress (with_days df1)) as [e|p]; cbn [snd].
  - destruct Safe as [S1 S2]. split; congruence.
  - repeat step. split; discriminate.
Qed.

(** ** The further properties at sample inputs *)

Lemma predict_on_empty_table_witness :
  exists work,
    predict_stock_price 0 {| heap := [one_column "Close" []]; ui := [] |}
    = ({| heap := [one_column "Close" []] ++ [work]; ui := [] |},
       inl (ValueError "Found array with 0 sample(s)")).
Proof.
  apply (predict_on_empty_table
           {| heap := [one_column "Close" []]; ui := [] |} 0
           (one_column "Close" [])).
  - reflexivity.
  - repeat split; [apply (bool_decide_unpack _); reflexivity].
Defined.

Lemma predict_without_close_column_witness :
  snd (predict_stock_price 0
         {| heap := [one_column "Open" [Some 1; Some 2]]; ui := [] |})
  = inl (KeyError "Close").
Proof.
  apply (predict_without_close_column _ 0 (one_column "Open" [Some 1; Some 2])).
  - reflexivity.
  - reflexivity.
  - apply (bool_decide_unpack _); reflexivity.
  - discriminate.
Defined.

Lemma predict_with_missing_close_witness :
  snd (predict_stock_price 0
         {| heap := [one_column "Close" [Some 1; None; Some 3]]; ui := [] |})
  = inl (ValueError "Input y contains NaN").
Proof.
  apply (predict_with_missing_close _ 0
           (one_column "Close" [Some 1; None; Some 3])
           [Some 1; None; Some 3]).
  - reflexivity.
  - repeat split; [apply (bool_decide_unpack _); reflexivity].
  - apply list_elem_of_further, list_elem_of_here.
Defined.


Lemma predict_index_name_taken_witness :
  predict_stock_price 0 {| heap := [clash_table]; ui := [] |}
  = ({| heap := [clash_table]; ui := [] |},
     inl (ValueError "cannot insert column, already exists")).
Proof.
  apply (predict_index_name_taken _ 0 clash_table).
  - reflexivity.
  - apply (bool_decide_unpack _); reflexivity.
Defined.



Lemma confidence_grows_with_change_witness :
  exists v1 v2,
    App.confidence (Some 1) = Some v1
    /\ App.confidence (Some (- (3))) = Some v2
    /\ v1 <= v2
    /\ (Qabs (- (3)) <= Qabs 1 -> v1 == v2).
Proof.
  apply (confidence_grows_with_change 1 (- (3))).
  unfold Qle. simpl. lia.
Defined.

Lemma confidence_of_missing_close_witness :
  App.confidence (App.fsub None (Some 150)) = Some 95.
Proof.
  apply (confidence_of_missing_close None (Some 150)).
  left. reflexivity.
Defined.

Lemma forecast_shown_from_20_rows_witness :
  (exists p,
      StSuccess p
        ∈ ui (fst (App.run "AAPL" (price_frame (line_bars 1 10 5)) [])))
  <-> (20 <= length (line_bars 1 10 5))%nat.
Proof.
  apply (forecast_shown_from_20_rows "AAPL" (line_bars 1 10 5) []).
  discriminate.
Defined.





Lemma export_includes_chart_columns_witness :
  let bars := line_bars 1 10 1 ++ [line_bar 1 10 1; line_bar 1 10 2] in
  exists table,
    StDownloadButton table ∈ ui (fst (App.run "AAPL" (price_frame bars) []))
    /\ Frame.names table
       = ["Adj Close"; "Close"; "High"; "Low"; "Open"; "Volume";
          "SMA_20"; "EMA_20"]%string
    /\ index table = map Date bars
    /\ Frame.getitem "Close" table = inr (map Some (map Close bars))
    /\ Frame.getitem "SMA_20" table
       = inr (Frame.rolling_mean 20 (map Some (map Close bars))).
Proof.
  apply (export_includes_chart_columns "AAPL" (line_bars 1 10 1)).
  discriminate.
Defined.

Lemma table_view_shows_last_25_witness :
  let bars := line_bars 1 10 28 ++ [line_bar 1 10 28; line_bar 1 10 29] in
  exists shown,
    StDataframe shown ∈ ui (fst (App.run "AAPL" (price_frame bars) []))
    /\ index shown = map Date (drop (length bars - 25) bars)
    /\ Frame.getitem "Close" shown
       = inr (map Some (map Close (drop (length bars - 25) bars)))
    /\ Frame.len shown = Nat.min 25 (length bars).
Proof.
  apply (table_view_shows_last_25 "AAPL" (line_bars 1 10 28)).
  discriminate.
Defined.

Lemma chart_lines_cover_all_dates_witness :
  let bars := line_bars 1 10 1 ++ [line_bar 1 10 1; line_bar 1 10 2] in
  exists traces,
    StPlotlyChart traces ∈ ui (fst (App.run "AAPL" (price_frame bars) []))
    /\ map (fun t => fst (fst t)) traces
       = ["Close"; "SMA 20"; "EMA 20"]%string
    /\ Forall (fun t => snd (fst t) = map Date bars
                        /\ length (snd t) = length bars) traces.
Proof.
  apply (chart_lines_cover_all_dates "AAPL" (line_bars 1 10 1)).
  discriminate.
Defined.



Lemma chart_tab_keeps_prices_witness :
  let df := price_frame (line_bars 1 10 3) in
  let s := {| heap := [df]; ui := [] |} in
  exists charted_df,
    heap (fst (App.chart_tab 0 s)) = <[0%nat := charted_df]> (heap s)
    /\ snd (App.chart_tab 0 s) = inr tt
    /\ index charted_df = index df
    /\ Frame.getitem "SMA_20" charted_df
       = inr (Frame.rolling_mean 20
                (map Some (map Close (line_bars 1 10 3))))
    /\ Frame.getitem "EMA_20" charted_df
       = inr (Frame.ewm_mean 20 (map Some (map Close (line_bars 1 10 3))))
    /\ forall name,
         name <> "SMA_20"%string -> name <> "EMA_20"%string ->
         Frame.getitem name charted_df = Frame.getitem name df.
Proof.
  apply (chart_tab_keeps_prices
           {| heap := [price_frame (line_bars 1 10 3)]; ui := [] |} 0
           (price_frame (line_bars 1 10 3))
           (map Some (map Close (line_bars 1 10 3)))).
  - reflexivity.
  - split; reflexivity.
Defined.

Lemma chart_tab_twice_witness :
  let s := {| heap := [no_volume_yet]; ui := [] |} in
  heap (fst (App.chart_tab 0 (fst (App.chart_tab 0 s))))
  = heap (fst (App.chart_tab 0 s)).
Proof.
  apply (chart_tab_twice {| heap := [no_volume_yet]; ui := [] |} 0
           no_volume_yet [Some 10; Some 11]).
  - reflexivity.
  - split; reflexivity.
Defined.

Lemma run_keeps_fetched_table_witness :
  exists data,
    heap (fst (App.run "AAPL" no_volume_yet [])) !! 0%nat = Some data
    /\ index data = index no_volume_yet
    /\ forall name,
         name <> "SMA_20"%string -> name <> "EMA_20"%string ->
         Frame.getitem name data = Frame.getitem name no_volume_yet.
Proof.
  apply (run_keeps_fetched_table "AAPL" no_volume_yet []). discriminate.
Defined.

Lemma moving_averages_within_range_witness :
  10 <= mean (take 20 (drop 0 (map Close (line_bars 1 10 20)))) <= 29.
Proof.
  apply (moving_averages_within_range (line_bars 1 10 20) 10 29 19).
  - repeat (constructor; [split; unfold Qle; simpl; lia|]). constructor.
  - left. eexists. split; reflexivity.
Defined.

Lemma load_data_flattens_header_witness :
  Frame.getitem "Volume" (load_data two_level_download)
  = inr [Some 500; Some 600]
  /\ index (load_data two_level_download) = dl_index two_level_download
  /\ Frame.names (load_data two_level_download)
     = map fst [("Close", "AAPL"); ("Volume", "AAPL")]%string.
Proof.
  apply (load_data_flattens_header two_level_download
           [("Close", "AAPL"); ("Volume", "AAPL")]%string 1
           "Volume" "AAPL").
  - reflexivity.
  - reflexivity.
  - apply (bool_decide_unpack _); reflexivity.
  - reflexivity.
  - reflexivity.
Defined.

Lemma prediction_tab_never_fits_nan_witness :
  let s := {| heap := [one_column "Close" [Some 1; None; Some 3]];
              ui := [] |} in
  snd (App.prediction_tab 0 None s)
    <> inl (ValueError "Input y contains NaN")
  /\ snd (App.prediction_tab 0 None s)
     <> inl (ValueError "Input X contains NaN").
Proof.
  apply (prediction_tab_never_fits_nan
           {| heap := [one_column "Close" [Some 1; None; Some 3]];
              ui := [] |} 0
           (one_column "Close" [Some 1; None; Some 3])).
  reflexivity.
Defined.
